(** * Poof: the Python SDK of the Poof background-removal API

    A shallow embedding of [src/poof/__init__.py] and
    [src/poof/exceptions.py], and the properties of the client contract
    proved on it.

    The client is glue code over three things it does not implement: the
    [httpx] transport, the local filesystem and the [mimetypes] database.
    They are collected in the record [Env]; everything the client itself
    does (input resolution, request construction, the mapping of a
    response to a result or to an exception) is translated function by
    function, in a state-and-exception monad whose state holds what the
    client can change: the transport handles, the caller's streams and the
    log of network calls. *)

From Stdlib Require Import ZArith QArith Strings.Ascii Strings.Byte.
From stdpp Require Import base option list gmap strings pretty.

Set Warnings "-register-all".
Local Open Scope Z_scope.

(** ** Python strings *)

Module PyStr.

(** Truth value of a [str]: only the empty string is falsy. *)
Definition truthy (s : string) : bool :=
  match s with
  | EmptyString => false
  | String _ _ => true
  end.

(** [x or d] for [x : Optional[str]] and [d : str]: [d] is taken when [x]
    is [None] and also when it is the empty string. *)
Definition or_else (x : option string) (d : string) : string :=
  match x with
  | Some s => if truthy s then s else d
  | None => d
  end.

Definition lower_ascii (c : ascii) : ascii :=
  let n := N_of_ascii c in
  if ((65 <=? n) && (n <=? 90))%N then ascii_of_N (n + 32) else c.

(** [str.lower], on the ASCII range. *)
Fixpoint lower (s : string) : string :=
  match s with
  | EmptyString => EmptyString
  | String c s' => String (lower_ascii c) (lower s')
  end.

(** [str(b)] for a [bool]. *)
Definition of_bool (b : bool) : string := if b then "True" else "False".

(** [s.lstrip(chars)] and [s.rstrip(chars)], the character set given as a
    predicate. *)
Fixpoint lstrip (p : ascii → bool) (s : string) : string :=
  match s with
  | EmptyString => EmptyString
  | String c s' => if p c then lstrip p s' else s
  end.

Fixpoint rstrip (p : ascii → bool) (s : string) : string :=
  match s with
  | EmptyString => EmptyString
  | String c s' =>
      match rstrip p s' with
      | EmptyString => if p c then EmptyString else String c EmptyString
      | r => String c r
      end
  end.

Definition is_char (c : ascii) : ascii → bool := Ascii.eqb c.

(** [s.split(sep)] for a one-character separator: never the empty list. *)
Fixpoint split (sep : ascii) (s : string) : list string :=
  match s with
  | EmptyString => [EmptyString]
  | String c s' =>
      if Ascii.eqb c sep then EmptyString :: split sep s'
      else match split sep s' with
           | w :: ws => String c w :: ws
           | [] => [String c EmptyString]
           end
  end.

(** [sep.join(items)]. *)
Definition join (sep : string) (items : list string) : string :=
  String.concat sep items.

Fixpoint ends_with (c : ascii) (s : string) : bool :=
  match s with
  | EmptyString => false
  | String a EmptyString => Ascii.eqb a c
  | String _ s' => ends_with c s'
  end.

Fixpoint repeat (c : ascii) (n : nat) : string :=
  match n with
  | O => EmptyString
  | S n' => String c (repeat c n')
  end.

(** *** [int(s)] on a string

    CPython's [int] with the default base 10 accepts, of the strings that
    are all ASCII, [ws* [+-]? digit (_? digit)* ws*] where [ws] is one of
    the six ASCII white-space characters; any other ASCII string is a
    [ValueError].  Since CPython 3.11 (and the security releases of 3.7 to
    3.10) a literal of more than [sys.get_int_max_str_digits()] digits is a
    [ValueError] too; the limit is a parameter here, [0] meaning no limit
    as in CPython.

    A character above 127 stands for a character that is not ASCII.
    [int] accepts some strings with such characters (it strips Unicode
    white space and reads Unicode decimal digits); what it makes of them
    is not computed here but taken as a parameter, [non_ascii]. *)

Definition is_ascii_char (c : ascii) : bool := (N_of_ascii c <? 128)%N.

Fixpoint is_ascii (s : string) : bool :=
  match s with
  | EmptyString => true
  | String c s' => is_ascii_char c && is_ascii s'
  end.

(** The digits of [digit (_? digit)*].  [prev_us] says that the character
    before was an underscore, or that no character was read yet: an
    underscore or the end of the literal is refused there. *)
Fixpoint int_digits (prev_us : bool) (s : string) : option (list nat) :=
  match s with
  | EmptyString => if prev_us then None else Some []
  | String c s' =>
      if Ascii.eqb c "_" then
        if prev_us then None else int_digits true s'
      else
        match Ascii.is_nat c with
        | Some d => cons d <$> int_digits false s'
        | None => None
        end
  end.

Definition digits_value (ds : list nat) : Z :=
  foldl (λ acc d, 10 * acc + Z.of_nat d) 0 ds.

Definition int_sign (s : string) : Z * string :=
  match s with
  | String "+" s' => (1, s')
  | String "-" s' => (-1, s')
  | _ => (1, s)
  end.

Definition int_of_ascii (max_str_digits : nat) (s : string) : option Z :=
  let body := rstrip Ascii.is_space (lstrip Ascii.is_space s) in
  let '(sign, lit) := int_sign body in
  match int_digits true lit with
  | Some ds =>
      if (negb (max_str_digits =? 0)%nat && (max_str_digits <? length ds)%nat)
      then None
      else Some (sign * digits_value ds)
  | None => None
  end.

(** [int(s)]: the integer, or [None] when [int] raises [ValueError]. *)
Definition int (max_str_digits : nat) (non_ascii : string → option Z) (s : string)
    : option Z :=
  if is_ascii s then int_of_ascii max_str_digits s else non_ascii s.

(** [c in s] for a character [c]. *)
Fixpoint contains (c : ascii) (s : string) : bool :=
  match s with
  | EmptyString => false
  | String a s' => Ascii.eqb a c || contains c s'
  end.

End PyStr.

(** ** [pathlib]: pure POSIX paths *)

Module Pathlib.

(** A parsed path: the root ([""], ["/"] or ["//"]) and the components
    after it, with the empty and the ["."] components dropped, as
    [PurePosixPath] keeps them. *)
Record PurePath := mkPath { root : string; parts : list string }.

(** [posixpath.splitroot]: exactly two leading slashes are a root of
    their own, one or three and more are ["/"]. *)
Definition splitroot (p : string) : string * string :=
  match p with
  | String "/" rest =>
      match rest with
      | String "/" (String "/" _) => ("/", rest)
      | String "/" rest2 => ("//", rest2)
      | _ => ("/", rest)
      end
  | _ => ("", p)
  end.

Definition keep_part (x : string) : bool :=
  PyStr.truthy x && negb (String.eqb x ".").

(** [Path(p)] *)
Definition Path (p : string) : PurePath :=
  let '(r, rel) := splitroot p in
  mkPath r (filter (λ x, keep_part x = true) (PyStr.split "/" rel)).

(** [str(path)] *)
Definition str (p : PurePath) : string :=
  if PyStr.truthy (root p) then root p +:+ PyStr.join "/" (parts p)
  else PyStr.or_else (Some (PyStr.join "/" (parts p))) ".".

(** [path.name]: the last component, [""] when there is none. *)
Definition name (p : PurePath) : string := List.last (parts p) "".

End Pathlib.

(** ** JSON values, as [json.loads] builds them

    [JNull] is Python's [None], an object is a [dict] with string keys.  A
    float is kept as its lexeme: the client only carries these values. *)

Inductive json : Type :=
| JNull
| JBool (b : bool)
| JInt (n : Z)
| JFloat (lexeme : string)
| JStr (s : string)
| JArr (items : list json)
| JObj (members : gmap string json).

(** [d.get(key, default)] on a [dict]. *)
Definition dict_get (d : gmap string json) (key : string) (dflt : json) : json :=
  default dflt (d !! key).

(** An [Optional[str]] as a Python value. *)
Definition json_of_opt_str (o : option string) : json :=
  match o with
  | Some s => JStr s
  | None => JNull
  end.

(** ** The [httpx] interface the client uses *)

Module Httpx.

(** Response headers: a multi-map with case-insensitive names, in the
    order received. *)
Definition Headers := list (string * string).

(** [Headers.get(key)]: the values of all the headers of that name, joined
    with [", "]; [None] when there is none. *)
Definition get (hs : Headers) (key : string) : option string :=
  let k := PyStr.lower key in
  match (filter (λ kv, PyStr.lower kv.1 = k) hs).*2 with
  | [] => None
  | items => Some (PyStr.join ", " items)
  end.

(** What the client reads of a response.  [text] is the decoded body and
    [json_body] the outcome of [response.json()], [None] when it raises;
    both derive from [content], which the model does not use to relate
    them: every statement holds for any combination. *)
Record Response := mkResponse {
  status_code : Z;
  headers : Headers;
  content : list byte;
  text : string;
  json_body : option json
}.

Inductive Method := GET | POST.

(** A file part of a multipart body: [(filename, data, content_type)]. *)
Definition FilePart : Type := string * list byte * string.

(** The arguments of [Client.get] and [Client.post].  [files] and [data]
    are [None] when the argument is not passed or is passed as [None]. *)
Record Request := mkRequest {
  method : Method;
  url : string;
  req_headers : gmap string string;
  files : option (gmap string FilePart);
  data : option (gmap string string)
}.

(** The form fields of the outbound body: those of [data], none when no
    [data] is passed. *)
Definition form_fields (r : Request) : gmap string string :=
  default ∅ (data r).

Definition file_parts (r : Request) : gmap string FilePart :=
  default ∅ (files r).

(** A transport handle, [httpx.Client]: the timeout it was made with (a
    Python [float], a rational here) and whether it was closed. *)
Record Client := mkClient { timeout : Q; is_closed : bool }.

End Httpx.

(** ** Exceptions ([exceptions.py]) *)

(** The fields of a [PoofError].  [message], [code], [details] and
    [request_id] hold whatever the error body gave, so they are Python
    values; [None] is [JNull]. *)
Record PoofError := mkPoofError {
  message : json;
  code : json;
  details : json;
  request_id : json;
  status_code : Z
}.

(** The classes of [exceptions.py]: [PoofErrorBase] is [PoofError] itself,
    the six others are its subclasses, which add nothing to it. *)
Inductive error_class :=
| PoofErrorBase
| AuthError
| PaymentRequiredError
| PermissionDeniedError
| RateLimitError
| ValidationError
| ServerError.

(** What a call can raise: the client's own errors, the built-in ones it
    raises or lets through, and the failures of the environment. *)
Inductive exn :=
| ApiError (cls : error_class) (e : PoofError)
| ValueError (msg : string)
| TypeError (msg : string)
| AttributeError (msg : string)
| FileNotFoundError (msg : string)
| OSError (msg : string)
| TransportError (msg : string)
| JSONDecodeError.

(** ** State and exceptions *)

Inductive outcome (A : Type) :=
| Return (a : A)
| Raise (e : exn).
Arguments Return {A} a.
Arguments Raise {A} e.

(** The [name] attribute of a stream, when it has one: a [str], a [Path],
    or something else (the file descriptor of [open(fd)], say). *)
Inductive name_attr :=
| NameStr (s : string)
| NamePath (p : Pathlib.PurePath)
| NameOther.

(** A readable binary stream: its bytes, the read position and the [name]
    attribute. *)
Record Stream := mkStream {
  stream_buf : list byte;
  stream_pos : nat;
  stream_name : option name_attr
}.

(** What the client can change: the transport handles (a handle is its
    index), the caller's open streams (likewise) and the network calls made
    so far, oldest first. *)
Record State := mkState {
  handles : list Httpx.Client;
  streams : list Stream;
  net_calls : list Httpx.Request
}.

(** What the client only reads: the filesystem, the [mimetypes] database,
    the interpreter's [int], and the server behind the transport, which
    answers a request with a response or fails (timeout, connection
    error).

    [path_present p] says whether there is a file or a directory at [p];
    the client cannot read it, it can only ask: [path_exists p] is the
    outcome of [Path(p).exists()], which answers, or raises the [OSError]
    of [stat] that it does not take for an absent file (a name that is too
    long, a directory that may not be searched).  Of [int] the environment
    gives the limit on the digits, what [int]
    makes of a string that is not all ASCII, and the text of the
    [ValueError] that it raises on a string. *)
Record Env := mkEnv {
  path_present : string → bool;
  path_exists : string → outcome bool;
  path_read_bytes : string → outcome (list byte);
  guess_type : string → option string;
  int_max_str_digits : nat;
  int_non_ascii : string → option Z;
  int_error_text : string → string;
  http_send : Httpx.Request → outcome Httpx.Response
}.


(** [int(s)] in the environment. *)
Definition py_int (env : Env) (s : string) : option Z :=
  PyStr.int (int_max_str_digits env) (int_non_ascii env) s.

Definition M (A : Type) : Type := State → outcome A * State.

Definition ret {A} (a : A) : M A := λ s, (Return a, s).
Definition raise {A} (e : exn) : M A := λ s, (Raise e, s).
Definition bind {A B} (m : M A) (k : A → M B) : M B := λ s,
  match m s with
  | (Return a, s') => k a s'
  | (Raise e, s') => (Raise e, s')
  end.

Declare Scope py_scope.
Delimit Scope py_scope with py.
Notation "'let*' x ':=' m 'in' k" := (bind m (λ x, k))
  (at level 10, x pattern, m at level 100, k at level 200) : py_scope.
Local Open Scope py_scope.

(** An outcome of the environment, as a step of the client. *)
Definition lift {A} (o : outcome A) : M A := λ s, (o, s).

(** [httpx.Client(timeout=t)]: a new open handle. *)
Definition httpx_Client (t : Q) : M nat := λ s,
  (Return (length (handles s)),
   mkState (handles s ++ [Httpx.mkClient t false]) (streams s) (net_calls s)).

(** [client.close()] *)
Definition httpx_close (h : nat) : M unit := λ s,
  (Return tt,
   mkState (alter (λ c, Httpx.mkClient (Httpx.timeout c) true) h (handles s))
           (streams s) (net_calls s)).

(** The state with one more network call. *)
Definition log_call (r : Httpx.Request) (s : State) : State :=
  mkState (handles s) (streams s) (net_calls s ++ [r]).

(** [client.get(...)] and [client.post(...)]: one network call, logged.
    What comes back is for the server of the environment to say; the state
    of the handle is not consulted. *)
Definition httpx_request (env : Env) (h : nat) (r : Httpx.Request) : M Httpx.Response := λ s,
  (http_send env r, log_call r s).

(** [stream.read()]: the bytes from the position on, the position moved to
    the end.  An index with no open stream behind it reads as a closed
    file does. *)
Definition stream_read (l : nat) : M (list byte) := λ s,
  match streams s !! l with
  | Some st =>
      (Return (drop (stream_pos st) (stream_buf st)),
       mkState (handles s)
               (<[l := mkStream (stream_buf st)
                                (Nat.max (stream_pos st) (length (stream_buf st)))
                                (stream_name st)]> (streams s))
               (net_calls s))
  | None => (Raise (ValueError "I/O operation on closed file."), s)
  end.

(** [getattr(stream, "name", dflt)] *)
Definition stream_getattr_name (l : nat) : M (option name_attr) := λ s,
  (Return (st ← streams s !! l; stream_name st), s).

(** ** The client ([__init__.py]) *)

Definition __version__ : string := "0.1.0".
Definition DEFAULT_BASE_URL : string := "https://api.poof.bg/v1".
Definition DEFAULT_TIMEOUT : Q := 60%Q.

(** [ImageInput = Union[str, Path, bytes, BinaryIO]], and the other
    objects that a caller can pass, of which only the name of the type
    matters: [ImgStream] is an object with a [read], whether an [IOBase]
    or not; [ImgNoRead] is an instance of [IOBase] that has no [read] (a
    bare subclass of [io.IOBase]); [ImgOther] is any object that is no
    [str], [Path] or [bytes], no [IOBase] and has no [read]. *)
Inductive ImageInput :=
| ImgStr (s : string)
| ImgPath (p : Pathlib.PurePath)
| ImgBytes (b : list byte)
| ImgStream (l : nat)
| ImgNoRead (type_name : string)
| ImgOther (type_name : string).

Record RemoveBackgroundResult := mkResult {
  res_data : list byte;
  res_content_type : option string;
  res_request_id : option string;
  res_processing_time_ms : option Z;
  res_width : option Z;
  res_height : option Z
}.

(** The attributes of a [Poof] instance. *)
Record Poof := mkPoof {
  _api_key : string;
  _base_url : string;
  _timeout : Q;
  _owns_client : bool;
  _client : nat
}.

Definition __init__ (api_key : string) (base_url : string) (timeout : Q)
    (httpx_client : option nat) : M Poof :=
  if negb (PyStr.truthy api_key) then raise (ValueError "api_key is required")
  else
    let owns_client := if httpx_client is None then true else false in
    let* client := match httpx_client with
                   | Some h => ret h
                   | None => httpx_Client timeout
                   end in
    ret (mkPoof api_key (PyStr.rstrip (PyStr.is_char "/") base_url) timeout
                owns_client client).

Definition close (self : Poof) : M unit :=
  if _owns_client self then httpx_close (_client self) else ret tt.

Definition __enter__ (self : Poof) : M Poof := ret self.

Definition __exit__ (self : Poof) : M unit := close self.

(** [with mgr as c: body(c)]: [__exit__] runs when the body returns and
    when it raises; it returns [None], so the body's exception goes on. *)
Definition with_ {A} (mgr : Poof) (body : Poof → M A) : M A := λ s,
  match __enter__ mgr s with
  | (Raise e, s0) => (Raise e, s0)
  | (Return c, s0) =>
      let '(r, s1) := body c s0 in
      match __exit__ mgr s1 with
      | (Raise e, s2) => (Raise e, s2)
      | (Return _, s2) => (r, s2)
      end
  end.

Definition _get_headers (self : Poof) : gmap string string :=
  <["User-Agent" := "poof-python/" +:+ __version__]>
    (<["x-api-key" := _api_key self]> ∅).

Definition _handle_error (self : Poof) (response : Httpx.Response) : M unit :=
  let '(code, message, details, request_id) :=
    match Httpx.json_body response with
    | Some (JObj error_data) =>
        (dict_get error_data "code" (JStr "unknown_error"),
         dict_get error_data "message" (JStr "Unknown error"),
         dict_get error_data "details" JNull,
         dict_get error_data "request_id" JNull)
    | _ =>
        (JStr "unknown_error",
         JStr (PyStr.or_else (Some (Httpx.text response))
                 ("HTTP " +:+ pretty (Httpx.status_code response))),
         JNull,
         json_of_opt_str (Httpx.get (Httpx.headers response) "X-Request-ID"))
    end in
  let error := mkPoofError message code details request_id
                 (Httpx.status_code response) in
  if Httpx.status_code response =? 401 then raise (ApiError AuthError error)
  else if Httpx.status_code response =? 402 then raise (ApiError PaymentRequiredError error)
  else if Httpx.status_code response =? 403 then raise (ApiError PermissionDeniedError error)
  else if Httpx.status_code response =? 429 then raise (ApiError RateLimitError error)
  else if Httpx.status_code response =? 400 then raise (ApiError ValidationError error)
  else if Httpx.status_code response >=? 500 then raise (ApiError ServerError error)
  else raise (ApiError PoofErrorBase error).

Definition octet_stream : string := "application/octet-stream".

Definition _prepare_image (env : Env) (self : Poof) (image : ImageInput)
    : M Httpx.FilePart :=
  let from_path (path : Pathlib.PurePath) : M Httpx.FilePart :=
    let* found := lift (path_exists env (Pathlib.str path)) in
    if negb found then
      raise (FileNotFoundError ("Image file not found: " +:+ Pathlib.str path))
    else
      let filename := Pathlib.name path in
      let* data := lift (path_read_bytes env (Pathlib.str path)) in
      let content_type := PyStr.or_else (guess_type env filename) octet_stream in
      ret (filename, data, content_type) in
  match image with
  | ImgStr s => from_path (Pathlib.Path s)
  | ImgPath p => from_path p
  | ImgBytes b => ret ("image", b, octet_stream)
  | ImgStream l =>
      let* data := stream_read l in
      let* name := stream_getattr_name l in
      let filename :=
        match name with
        | Some (NameStr n) => Pathlib.name (Pathlib.Path n)
        | Some (NamePath n) => Pathlib.name n
        | Some NameOther => "image"
        | None => Pathlib.name (Pathlib.Path "image")
        end in
      let content_type := PyStr.or_else (guess_type env filename) octet_stream in
      ret (filename, data, content_type)
  | ImgNoRead type_name =>
      raise (AttributeError ("'" +:+ type_name +:+ "' object has no attribute 'read'"))
  | ImgOther type_name =>
      raise (TypeError ("image must be a file path, bytes, or file-like object, got "
                        +:+ type_name))
  end.

(** [int(v) if v else None] *)
Definition int_or_none (env : Env) (v : option string) : M (option Z) :=
  match v with
  | Some s =>
      if PyStr.truthy s then
        match py_int env s with
        | Some n => ret (Some n)
        | None => raise (ValueError (int_error_text env s))
        end
      else ret None
  | None => ret None
  end.

Definition remove_background (env : Env) (self : Poof) (image : ImageInput)
    (format channels bg_color size : option string) (crop : option bool)
    : M RemoveBackgroundResult :=
  let* (filename, data, content_type) := _prepare_image env self image in
  let files : gmap string Httpx.FilePart :=
    {[ "image_file" := (filename, data, content_type) ]} in
  let form_data : gmap string string := ∅ in
  let form_data := if format is Some v then <["format" := v]> form_data else form_data in
  let form_data := if channels is Some v then <["channels" := v]> form_data else form_data in
  let form_data := if bg_color is Some v then <["bg_color" := v]> form_data else form_data in
  let form_data := if size is Some v then <["size" := v]> form_data else form_data in
  let form_data :=
    if crop is Some v then <["crop" := PyStr.lower (PyStr.of_bool v)]> form_data
    else form_data in
  let* response :=
    httpx_request env (_client self)
      (Httpx.mkRequest Httpx.POST (_base_url self +:+ "/remove") (_get_headers self)
         (Some files)
         (if decide (form_data = ∅) then None else Some form_data)) in
  let* _ := (if negb (Httpx.status_code response =? 200)
             then _handle_error self response else ret tt) in
  let headers := Httpx.headers response in
  let processing_time := Httpx.get headers "X-Processing-Time-Ms" in
  let width := Httpx.get headers "X-Image-Width" in
  let height := Httpx.get headers "X-Image-Height" in
  let content_type := Httpx.get headers "Content-Type" in
  let request_id := Httpx.get headers "X-Request-ID" in
  let* processing_time_ms := int_or_none env processing_time in
  let* width := int_or_none env width in
  let* height := int_or_none env height in
  ret (mkResult (Httpx.content response) content_type request_id
                processing_time_ms width height).

Definition me (env : Env) (self : Poof) : M json :=
  let* response :=
    httpx_request env (_client self)
      (Httpx.mkRequest Httpx.GET (_base_url self +:+ "/me") (_get_headers self)
         None None) in
  let* _ := (if negb (Httpx.status_code response =? 200)
             then _handle_error self response else ret tt) in
  match Httpx.json_body response with
  | Some v => ret v
  | None => raise JSONDecodeError
  end.

(** ** The methods of a result *)

(** The regular files that [save] writes to, by identity and not by
    name: two spellings of a path that reach the same file (through [..],
    a link, a relative and an absolute path) are one key. *)
Definition Disk : Type := gmap nat (list byte).

(** What the system makes of a path that is opened for writing: the file
    that the path names, or the one that opening it creates; whether the
    open is refused (no such directory, no permission, a directory); and
    whether the write fails after the open (a full disk), and after how
    many bytes. *)
Record Mount := mkMount {
  resolve : string → nat;
  open_refused : string → option exn;
  write_fails : string → option (exn * nat)
}.

(** [path.write_bytes(data)], which is [open(path, "wb")] and one [write]:
    a refused open changes nothing; the open empties the file, so a write
    that fails leaves the bytes that got through; otherwise the file holds
    [data]. *)
Definition write_bytes (m : Mount) (path : Pathlib.PurePath)
    (data : list byte) (disk : Disk) : outcome nat * Disk :=
  let p := Pathlib.str path in
  match open_refused m p with
  | Some e => (Raise e, disk)
  | None =>
      match write_fails m p with
      | Some (e, n) => (Raise e, <[resolve m p := take n data]> disk)
      | None => (Return (length data), <[resolve m p := data]> disk)
      end
  end.

(** A [str | Path] argument. *)
Inductive PathLike :=
| PathStr (s : string)
| PathObj (p : Pathlib.PurePath).

(** [Path(x)] for such an argument. *)
Definition to_path (x : PathLike) : Pathlib.PurePath :=
  match x with
  | PathStr raw => Pathlib.Path raw
  | PathObj p => p
  end.

Module Result.

Definition __bytes__ (self : RemoveBackgroundResult) : list byte := res_data self.

Definition __len__ (self : RemoveBackgroundResult) : Z :=
  Z.of_nat (length (res_data self)).

Definition save (m : Mount) (self : RemoveBackgroundResult)
    (path : PathLike) (disk : Disk) : outcome unit * Disk :=
  match write_bytes m (to_path path) (res_data self) disk with
  | (Return _, disk') => (Return tt, disk')
  | (Raise e, disk') => (Raise e, disk')
  end.

End Result.

(** ** What the properties are stated with *)

(** The table of the error-mapping protocol: which status gives which
    class.  The rows are exclusive, and every status is in one of them. *)
Definition kind_of_status (cls : error_class) (status : Z) : Prop :=
  match cls with
  | AuthError => status = 401
  | PaymentRequiredError => status = 402
  | PermissionDeniedError => status = 403
  | RateLimitError => status = 429
  | ValidationError => status = 400
  | ServerError => 500 ≤ status
  | PoofErrorBase =>
      status < 500 ∧ status ≠ 400 ∧ status ≠ 401 ∧ status ≠ 402
      ∧ status ≠ 403 ∧ status ≠ 429
  end.

(** The fallback of the error-mapping protocol, for a body that gives no
    JSON object. *)
Definition fallback_fields (response : Httpx.Response) (e : PoofError) : Prop :=
  code e = JStr "unknown_error"
  ∧ (Httpx.text response ≠ "" → message e = JStr (Httpx.text response))
  ∧ (Httpx.text response = "" →
       message e = JStr ("HTTP " +:+ pretty (Httpx.status_code response)))
  ∧ details e = JNull
  ∧ (∀ v, Httpx.get (Httpx.headers response) "X-Request-ID" = Some v →
       request_id e = JStr v)
  ∧ (Httpx.get (Httpx.headers response) "X-Request-ID" = None →
       request_id e = JNull).

(** The fields of an error read from a JSON object: each member when it is
    there, the default of the field when it is not. *)
Definition parsed_fields (d : gmap string json) (e : PoofError) : Prop :=
  (∀ v, d !! "code" = Some v → code e = v)
  ∧ (d !! "code" = None → code e = JStr "unknown_error")
  ∧ (∀ v, d !! "message" = Some v → message e = v)
  ∧ (d !! "message" = None → message e = JStr "Unknown error")
  ∧ (∀ v, d !! "details" = Some v → details e = v)
  ∧ (d !! "details" = None → details e = JNull)
  ∧ (∀ v, d !! "request_id" = Some v → request_id e = v)
  ∧ (d !! "request_id" = None → request_id e = JNull).

(** A call [run] that started in [s] and ended in [s'] with outcome [o]
    made exactly one network call, [req], and the server answered it with
    [response]. *)
Definition answered {A} (env : Env) (run : M A) (s : State) (o : outcome A)
    (s' : State) (req : Httpx.Request) (response : Httpx.Response) : Prop :=
  run s = (o, s')
  ∧ net_calls s' = net_calls s ++ [req]
  ∧ http_send env req = Return response.

(** Both operations raise [x] whenever the server answers them with
    [response]. *)
Definition operations_raise (env : Env) (self : Poof) (response : Httpx.Response)
    (x : exn) : Prop :=
  (∀ image format channels bg_color size crop s o s' req,
     answered env
       (remove_background env self image format channels bg_color size crop)
       s o s' req response →
     o = Raise x)
  ∧ (∀ s o s' req,
       answered env (me env self) s o s' req response → o = Raise x).

(** [response] with other headers. *)
Definition with_headers (hs : Httpx.Headers) (response : Httpx.Response)
    : Httpx.Response :=
  Httpx.mkResponse (Httpx.status_code response) hs (Httpx.content response)
    (Httpx.text response) (Httpx.json_body response).

(** The request of [remove_background] for the resolved image [part] and
    the options: one file part, named [image_file]; a form field for each
    option that is set and for no other name; no empty form. *)
Definition option_fields : list string :=
  ["format"; "channels"; "bg_color"; "size"; "crop"].

Definition is_remove_request (self : Poof) (part : Httpx.FilePart)
    (format channels bg_color size : option string) (crop : option bool)
    (req : Httpx.Request) : Prop :=
  Httpx.method req = Httpx.POST
  ∧ Httpx.url req = _base_url self +:+ "/remove"
  ∧ Httpx.req_headers req = _get_headers self
  ∧ Httpx.files req = Some {[ "image_file" := part ]}
  ∧ Httpx.form_fields req !! "format" = format
  ∧ Httpx.form_fields req !! "channels" = channels
  ∧ Httpx.form_fields req !! "bg_color" = bg_color
  ∧ Httpx.form_fields req !! "size" = size
  ∧ Httpx.form_fields req !! "crop" = (λ b : bool, if b then "true" else "false") <$> crop
  ∧ (∀ k, k ∉ option_fields → Httpx.form_fields req !! k = None)
  ∧ Httpx.data req ≠ Some ∅.

(** What [remove_background] does once the response is there: its body
    from the status test on. *)
Definition after_response (env : Env) (self : Poof) (response : Httpx.Response)
    : M RemoveBackgroundResult :=
  let* _ := (if negb (Httpx.status_code response =? 200)
             then _handle_error self response else ret tt) in
  let headers := Httpx.headers response in
  let* processing_time_ms :=
    int_or_none env (Httpx.get headers "X-Processing-Time-Ms") in
  let* width := int_or_none env (Httpx.get headers "X-Image-Width") in
  let* height := int_or_none env (Httpx.get headers "X-Image-Height") in
  ret (mkResult (Httpx.content response) (Httpx.get headers "Content-Type")
         (Httpx.get headers "X-Request-ID") processing_time_ms width height).

(** The same for [me]. *)
Definition after_me_response (self : Poof) (response : Httpx.Response) : M json :=
  let* _ := (if negb (Httpx.status_code response =? 200)
             then _handle_error self response else ret tt) in
  match Httpx.json_body response with
  | Some v => ret v
  | None => raise JSONDecodeError
  end.

Definition me_request (self : Poof) : Httpx.Request :=
  Httpx.mkRequest Httpx.GET (_base_url self +:+ "/me") (_get_headers self)
    None None.

(** The path that an image given as a [str] or a [Path] names. *)
Definition image_path (image : ImageInput) : option Pathlib.PurePath :=
  match image with
  | ImgStr raw => Some (Pathlib.Path raw)
  | ImgPath p => Some p
  | _ => None
  end.

(** The value of a numeric metadata header: nothing when the header is
    missing or empty, else what [int] makes of it. *)
Definition header_is_blank (v : option string) : Prop :=
  v = None ∨ v = Some "".

Definition header_is_int (env : Env) (v : option string) (n : Z) : Prop :=
  ∃ t, v = Some t ∧ t ≠ "" ∧ py_int env t = Some n.

Definition header_is_malformed (env : Env) (v : option string) : Prop :=
  ∃ t, v = Some t ∧ t ≠ "" ∧ py_int env t = None.

Definition header_is_wellformed (env : Env) (v : option string) : Prop :=
  header_is_blank v ∨ ∃ n, header_is_int env v n.

(** The field [f] of the result holds the value of the header [v]. *)
Definition field_of_header (env : Env) (v : option string) (f : option Z) : Prop :=
  (header_is_blank v → f = None) ∧ (∀ n, header_is_int env v n → f = Some n).

Definition metadata_headers : list string :=
  ["X-Processing-Time-Ms"; "X-Image-Width"; "X-Image-Height"].

(** The field of the result that a metadata header goes to. *)
Definition metadata_field (key : string) (res : RemoveBackgroundResult) : option Z :=
  if decide (key = "X-Processing-Time-Ms") then res_processing_time_ms res
  else if decide (key = "X-Image-Width") then res_width res
  else res_height res.



(** The sentence of the specification on parse failures, for the width: a
    200 response whose [X-Image-Width] is not a number gives a result with
    no width. *)
Definition non_numeric_width_gives_none : Prop :=
  ∀ env self image format channels bg_color size crop s o s' req response,
    answered env
      (remove_background env self image format channels bg_color size crop)
      s o s' req response →
    Httpx.status_code response = 200 →
    header_is_malformed env (Httpx.get (Httpx.headers response) "X-Image-Width") →
    ∃ res, o = Return res ∧ res_width res = None.

(** Two environments that differ in the server only. *)
Definition same_host (env env' : Env) : Prop :=
  path_exists env' = path_exists env
  ∧ path_read_bytes env' = path_read_bytes env
  ∧ guess_type env' = guess_type env
  ∧ int_max_str_digits env' = int_max_str_digits env
  ∧ int_non_ascii env' = int_non_ascii env
  ∧ int_error_text env' = int_error_text env.

(** The headers without those named [key], whatever the case. *)
Definition without_header (key : string) (hs : Httpx.Headers) : Httpx.Headers :=
  filter (λ kv, PyStr.lower kv.1 ≠ PyStr.lower key) hs.

Definition response_without_header (key : string) (r : Httpx.Response)
    : Httpx.Response :=
  with_headers (without_header key (Httpx.headers r)) r.

(** The [Path] objects that a program can hold are those that [Path(...)]
    builds. *)
Definition built_path (p : Pathlib.PurePath) : Prop :=
  ∃ raw, p = Pathlib.Path raw.

(** The [Path] objects of an image: the image itself, or the [name] of
    the stream. *)
Definition image_paths_built (image : ImageInput) (s : State) : Prop :=
  match image with
  | ImgPath p => built_path p
  | ImgStream l =>
      ∀ st p, streams s !! l = Some st → stream_name st = Some (NamePath p) →
              built_path p
  | _ => True
  end.

(** The requests that a run from [s] to [s'] has added to the log. *)
Definition calls_made (s s' : State) (reqs : list Httpx.Request) : Prop :=
  net_calls s' = net_calls s ++ reqs.

(** ** A small world to run the client in *)

Module Demo.

Definition photo : list byte := [xff; xd8; xff; xe0].
Definition cutout : list byte := [x89; x50; x4e; x47].

(** A no-break space, in a string of one-byte characters. *)
Definition nbsp : ascii := "160"%char.

(** Of the strings that are not all ASCII the demo knows one: [12] after a
    no-break space, which [int] reads as 12. *)
Definition non_ascii (s : string) : option Z :=
  if bool_decide (s = String nbsp "12") then Some 12 else None.

(** The text of [int]'s error, for a value without quotes or escapes. *)
Definition error_text (s : string) : string :=
  "invalid literal for int() with base 10: '" +:+ s +:+ "'".

(** A filesystem with one file, [photo.jpg], on which [stat] refuses a
    name of more than 255 characters. *)
Definition present (p : string) : bool := bool_decide (p = "photo.jpg").

Definition exists_ (p : string) : outcome bool :=
  if (255 <? String.length p)%nat then Raise (OSError "[Errno 36] File name too long")
  else Return (present p).

Definition read_bytes (p : string) : outcome (list byte) :=
  if bool_decide (p = "photo.jpg") then Return photo else Raise (OSError p).

(** A name that no file can have. *)
Definition long_name : string := PyStr.repeat "a" 300.

(** That filesystem and a server that answers every request with [r]. *)
Definition env (r : Httpx.Response) : Env :=
  mkEnv present exists_ read_bytes
        (λ n, if bool_decide (n = "photo.jpg") then Some "image/jpeg" else None)
        4300 non_ascii error_text
        (λ _, Return r).

(** A filesystem in which every path is there, with what reading it
    gives, and a server that always gives [r]. *)
Definition env_on (read : string → outcome (list byte))
    (r : outcome Httpx.Response) : Env :=
  mkEnv (λ _, true) (λ _, Return true) read (λ _, None) 4300 non_ascii error_text
        (λ _, r).

(** One handle that the caller made, one stream that the caller opened
    and has read two bytes of. *)
Definition state : State :=
  mkState [Httpx.mkClient 5%Q false]
          [mkStream photo 2 (Some (NameStr "/tmp/upload/photo.jpg"))]
          [].

Definition client : Poof := mkPoof "key" DEFAULT_BASE_URL DEFAULT_TIMEOUT false 0.

Definition quoted (s : string) : string :=
  String "034" (s +:+ String "034" "").

Definition of_text (status : Z) (hs : Httpx.Headers) (body : string)
    (parsed : option json) : Httpx.Response :=
  Httpx.mkResponse status hs (String.list_byte_of_string body) body parsed.

Definition ok (hs : Httpx.Headers) : Httpx.Response :=
  Httpx.mkResponse 200 hs cutout (String.string_of_list_byte cutout) None.

(** The metadata of the cutout, the height left out. *)
Definition sized : Httpx.Response :=
  ok [("Content-Type", "image/png"); ("X-Processing-Time-Ms", "120");
      ("X-Image-Width", "800")].

(** The same with a width that is no number. *)
Definition bad_width : Httpx.Response :=
  ok [("Content-Type", "image/png"); ("X-Processing-Time-Ms", "120");
      ("X-Image-Width", "abc")].

(** The same with an empty width. *)
Definition empty_width : Httpx.Response :=
  ok [("Content-Type", "image/png"); ("X-Processing-Time-Ms", "120");
      ("X-Image-Width", "")].

(** [remove_background("photo.jpg", format="webp", crop=True)] *)
Definition upload_webp (r : Httpx.Response) : M RemoveBackgroundResult :=
  remove_background (env r) client (ImgStr "photo.jpg")
    (Some "webp") None None None (Some true).

(** [remove_background(photo)], all options left out. *)
Definition upload (r : Httpx.Response) : M RemoveBackgroundResult :=
  remove_background (env r) client (ImgBytes photo) None None None None None.

Definition error_body : gmap string json :=
  <["message" := JStr "Invalid API key"]>
    (<["request_id" := JStr "req_1"]> ∅).

Definition json_error (status : Z) : Httpx.Response :=
  of_text status [("X-Request-ID", "hdr_1")]
    ("{" +:+ quoted "message" +:+ ": " +:+ quoted "Invalid API key" +:+ ", "
         +:+ quoted "request_id" +:+ ": " +:+ quoted "req_1" +:+ "}")
    (Some (JObj error_body)).

Definition text_error (status : Z) (body : string) : Httpx.Response :=
  of_text status [("x-request-id", "hdr_1")] body None.

Definition sparse_body : gmap string json := {[ "details" := JStr "Try again later" ]}.

Definition sparse_error (status : Z) : Httpx.Response :=
  of_text status [("X-Request-ID", "hdr_1")]
    ("{" +:+ quoted "details" +:+ ": " +:+ quoted "Try again later" +:+ "}")
    (Some (JObj sparse_body)).

End Demo.

(** * Properties *)

(** ** The monad and the steps of the environment *)

Ltac run_step :=
  unfold bind, ret, raise, lift, httpx_request, httpx_close, httpx_Client,
    log_call in *;
  simpl in *.

Lemma fallback_fields_intro (response : Httpx.Response) :
  fallback_fields response
    (mkPoofError
       (JStr (PyStr.or_else (Some (Httpx.text response))
                ("HTTP " +:+ pretty (Httpx.status_code response))))
       (JStr "unknown_error") JNull
       (json_of_opt_str (Httpx.get (Httpx.headers response) "X-Request-ID"))
       (Httpx.status_code response)).
Proof.
  unfold fallback_fields; simpl. repeat split.
  - intros Hne. by destruct (Httpx.text response).
  - by intros ->.
  - by intros v ->.
  - by intros ->.
Qed.

Lemma parsed_fields_intro (d : gmap string json) (status : Z) :
  parsed_fields d
    (mkPoofError (dict_get d "message" (JStr "Unknown error"))
       (dict_get d "code" (JStr "unknown_error"))
       (dict_get d "details" JNull) (dict_get d "request_id" JNull) status).
Proof.
  unfold parsed_fields, dict_get; simpl.
  repeat split; intros; by simplify_option_eq.
Qed.

Ltac by_status :=
  repeat match goal with
         | |- context [if ?a =? ?b then _ else _] => destruct (Z.eqb_spec a b)
         | |- context [if ?a >=? ?b then _ else _] =>
             rewrite (Z.geb_leb a b); destruct (Z.leb_spec b a)
         end.

Lemma handle_error_total (self : Poof) (response : Httpx.Response) :
  ∃ cls e, (∀ s, _handle_error self response s = (Raise (ApiError cls e), s))
    ∧ status_code e = Httpx.status_code response
    ∧ kind_of_status cls (Httpx.status_code response)
    ∧ match Httpx.json_body response with
      | Some (JObj d) => parsed_fields d e
      | _ => fallback_fields response e
      end.
Proof.
  pose proof (fallback_fields_intro response) as Hfb.
  unfold _handle_error, raise.
  destruct (Httpx.json_body response) as [[| | | | | |obj]|]; cbn beta iota zeta;
    try pose proof (parsed_fields_intro obj (Httpx.status_code response));
    by_status;
    eexists _, _; (split; [intros ?; reflexivity|]); (split; [reflexivity|]);
    (split; [simpl; lia | done]).
Qed.

Lemma kind_of_status_unique (cls cls' : error_class) (status : Z) :
  kind_of_status cls status → kind_of_status cls' status → cls = cls'.
Proof. destruct cls, cls'; simpl; intros; first [reflexivity | lia]. Qed.

Lemma int_or_none_state (env : Env) (v : option string) (s : State) :
  int_or_none env v s = ((int_or_none env v s).1, s).
Proof.
  unfold int_or_none, ret, raise. by repeat case_match.
Qed.

Lemma int_or_none_blank (env : Env) (v : option string) (s : State) :
  header_is_blank v → int_or_none env v s = (Return None, s).
Proof. by intros [-> | ->]. Qed.

Lemma int_or_none_int (env : Env) (v : option string) (n : Z) (s : State) :
  header_is_int env v n → int_or_none env v s = (Return (Some n), s).
Proof.
  intros (t & -> & Hne & Hint). unfold int_or_none.
  destruct t; [done |]. simpl PyStr.truthy. cbn iota. by rewrite Hint.
Qed.

Lemma int_or_none_malformed (env : Env) (v : option string) (s : State) :
  header_is_malformed env v → ∃ msg, int_or_none env v s = (Raise (ValueError msg), s).
Proof.
  intros (t & -> & Hne & Hint). unfold int_or_none.
  destruct t; [done |]. simpl PyStr.truthy. cbn iota. rewrite Hint. by eexists.
Qed.

(** Every header value is blank, an integer literal, or malformed. *)
Lemma header_trichotomy (env : Env) (v : option string) :
  header_is_blank v ∨ (∃ n, header_is_int env v n) ∨ header_is_malformed env v.
Proof.
  destruct v as [t|]; [| by left; left].
  destruct (decide (t = "")) as [-> | Hne]; [by left; right |].
  destruct (py_int env t) as [n|] eqn:Hint.
  - right; left. exists n, t. done.
  - right; right. exists t. done.
Qed.

(** ** Resolution of the image *)

Lemma prepare_image_frame (env : Env) (self : Poof) (image : ImageInput)
    (s s' : State) (o : outcome Httpx.FilePart) :
  _prepare_image env self image s = (o, s') →
  handles s' = handles s ∧ net_calls s' = net_calls s
  ∧ stream_buf <$> streams s' = stream_buf <$> streams s
  ∧ stream_name <$> streams s' = stream_name <$> streams s.
Proof.
  assert (Hpath : ∀ p o' s'',
    (let* found := lift (path_exists env (Pathlib.str p)) in
     if negb found
     then raise (FileNotFoundError ("Image file not found: " +:+ Pathlib.str p))
     else let* data := lift (path_read_bytes env (Pathlib.str p)) in
          ret (Pathlib.name p, data,
               PyStr.or_else (guess_type env (Pathlib.name p)) octet_stream)) s
    = (o', s'') → s'' = s).
  { intros p o' s''. run_step. repeat case_match; by intros [= _ <-]. }
  destruct image as [p | p | b | l | ty0 | ty]; cbn [_prepare_image].
  - by intros ->%Hpath.
  - by intros ->%Hpath.
  - by intros [= _ <-].
  - unfold bind, stream_read, stream_getattr_name, ret.
    destruct (streams s !! l) as [st|] eqn:Hl; [| by intros [= _ <-]].
    intros [= _ <-]; simpl. repeat split.
    + rewrite list_fmap_insert. simpl. apply list_insert_id.
      by rewrite list_lookup_fmap, Hl.
    + rewrite list_fmap_insert. simpl. apply list_insert_id.
      by rewrite list_lookup_fmap, Hl.
  - by intros [= _ <-].
  - by intros [= _ <-].
Qed.

(** ** The two operations, step by step *)

Section Operations.

Variable env : Env.
Variable self : Poof.

Lemma after_response_state (response : Httpx.Response) (s : State) :
  after_response env self response s = ((after_response env self response s).1, s).
Proof.
  unfold after_response, bind, ret.
  destruct (negb _).
  - destruct (handle_error_total self response) as (cls & e & -> & _). done.
  - do 3 (rewrite int_or_none_state; destruct (int_or_none _ _ _).1; [| done]).
    done.
Qed.

Lemma remove_background_prepare_fails (image : ImageInput)
    (format channels bg_color size : option string) (crop : option bool)
    (s s1 : State) (e : exn) :
  _prepare_image env self image s = (Raise e, s1) →
  remove_background env self image format channels bg_color size crop s
  = (Raise e, s1).
Proof. intros Hp. unfold remove_background, bind. by rewrite Hp. Qed.

(** [data=form_data if form_data else None] passes the fields of
    [form_data]. *)
Lemma form_data_or_none (form_data : gmap string string) :
  default ∅ (if decide (form_data = ∅) then None else Some form_data) = form_data.
Proof. by case_decide. Qed.

Lemma remove_background_sends (image : ImageInput)
    (format channels bg_color size : option string) (crop : option bool)
    (s s1 : State) (part : Httpx.FilePart) :
  _prepare_image env self image s = (Return part, s1) →
  ∃ req,
    is_remove_request self part format channels bg_color size crop req
    ∧ remove_background env self image format channels bg_color size crop s
      = match http_send env req with
        | Return response => after_response env self response (log_call req s1)
        | Raise e => (Raise e, log_call req s1)
        end.
Proof.
  intros Hp. unfold remove_background, bind at 1. rewrite Hp.
  destruct part as [[filename data] content_type].
  unfold bind at 1, httpx_request.
  match goal with |- context [http_send env ?r] => exists r end.
  split; [| by destruct (http_send env _)].
  unfold is_remove_request, Httpx.form_fields, option_fields; cbn [Httpx.method
    Httpx.url Httpx.req_headers Httpx.files Httpx.data].
  rewrite form_data_or_none.
  repeat (split; [first [reflexivity
    | by destruct format, channels, bg_color, size, crop as [[]|];
         simplify_map_eq] |]).
  split.
  - intros k Hk.
    assert (k ≠ "format" ∧ k ≠ "channels" ∧ k ≠ "bg_color" ∧ k ≠ "size"
            ∧ k ≠ "crop") as (? & ? & ? & ? & ?).
    { repeat split; intros ->; apply Hk; set_solver. }
    destruct format, channels, bg_color, size, crop; by simplify_map_eq.
  - case_decide as Hd; [done | by intros [= ?]].
Qed.

Lemma remove_background_answered (image : ImageInput)
    (format channels bg_color size : option string) (crop : option bool)
    (s s' : State) (o : outcome RemoveBackgroundResult)
    (req : Httpx.Request) (response : Httpx.Response) :
  answered env
    (remove_background env self image format channels bg_color size crop)
    s o s' req response →
  ∃ part s1,
    _prepare_image env self image s = (Return part, s1)
    ∧ is_remove_request self part format channels bg_color size crop req
    ∧ s' = log_call req s1
    ∧ after_response env self response s' = (o, s').
Proof.
  intros (Hrun & Hlog & Hsend).
  destruct (_prepare_image env self image s) as [[part | e] s1] eqn:Hp.
  - destruct (prepare_image_frame _ _ _ _ _ _ Hp) as (_ & Hnet & _).
    destruct (remove_background_sends image format channels bg_color size crop
                s s1 part Hp) as (req0 & Hreq & Heq).
    rewrite Hrun in Heq.
    assert (net_calls s' = net_calls s ++ [req0]) as Hlog0.
    { destruct (http_send env req0).
      - rewrite after_response_state in Heq. injection Heq as _ ->.
        simpl. by rewrite Hnet.
      - injection Heq as _ ->. simpl. by rewrite Hnet. }
    rewrite Hlog in Hlog0. apply app_inj_tail in Hlog0 as [_ <-].
    rewrite Hsend in Heq. exists part, s1. split; [done |]. split; [done |].
    rewrite after_response_state in Heq. injection Heq as -> ->.
    split; [done | apply after_response_state].
  - rewrite (remove_background_prepare_fails _ format channels bg_color size crop
               _ _ _ Hp) in Hrun.
    injection Hrun as _ <-.
    destruct (prepare_image_frame _ _ _ _ _ _ Hp) as (_ & Hnet & _).
    rewrite Hnet in Hlog. apply (f_equal length) in Hlog.
    rewrite length_app in Hlog. simpl in Hlog. lia.
Qed.

Lemma me_sends (s : State) :
  me env self s
  = match http_send env (me_request self) with
    | Return response => after_me_response self response (log_call (me_request self) s)
    | Raise e => (Raise e, log_call (me_request self) s)
    end.
Proof.
  unfold me, bind at 1, httpx_request, me_request.
  by destruct (http_send env _).
Qed.

Lemma after_me_response_state (response : Httpx.Response) (s : State) :
  after_me_response self response s = ((after_me_response self response s).1, s).
Proof.
  unfold after_me_response, bind, ret, raise.
  destruct (negb _).
  - destruct (handle_error_total self response) as (cls & e & -> & _). done.
  - by destruct (Httpx.json_body response).
Qed.

Lemma me_answered (s s' : State) (o : outcome json)
    (req : Httpx.Request) (response : Httpx.Response) :
  answered env (me env self) s o s' req response →
  req = me_request self ∧ s' = log_call req s
  ∧ after_me_response self response s' = (o, s').
Proof.
  intros (Hrun & Hlog & Hsend). rewrite me_sends in Hrun.
  assert (net_calls s' = net_calls s ++ [me_request self]) as Hlog0.
  { destruct (http_send env (me_request self)).
    - rewrite after_me_response_state in Hrun. by injection Hrun as _ <-.
    - by injection Hrun as _ <-. }
  rewrite Hlog in Hlog0. apply app_inj_tail in Hlog0 as [_ ->].
  rewrite Hsend in Hrun. split; [done |].
  rewrite after_me_response_state in Hrun. injection Hrun as <- <-.
  split; [done | apply after_me_response_state].
Qed.

(** A status other than 200 leaves both operations in [_handle_error]. *)
Lemma after_response_error (response : Httpx.Response) (s : State)
    (cls : error_class) (e : PoofError) :
  Httpx.status_code response ≠ 200 →
  (∀ s0, _handle_error self response s0 = (Raise (ApiError cls e), s0)) →
  after_response env self response s = (Raise (ApiError cls e), s)
  ∧ after_me_response self response s = (Raise (ApiError cls e), s).
Proof.
  intros Hst He.
  unfold after_response, after_me_response, bind.
  destruct (Z.eqb_spec (Httpx.status_code response) 200) as [|_]; [done |].
  simpl. by rewrite He.
Qed.

(** On status 200 [remove_background] goes on to the headers. *)
Lemma after_response_ok (response : Httpx.Response) (s : State) :
  Httpx.status_code response = 200 →
  after_response env self response s
  = (let* processing_time_ms :=
       int_or_none env (Httpx.get (Httpx.headers response) "X-Processing-Time-Ms") in
     let* width := int_or_none env (Httpx.get (Httpx.headers response) "X-Image-Width") in
     let* height := int_or_none env (Httpx.get (Httpx.headers response) "X-Image-Height") in
     ret (mkResult (Httpx.content response)
            (Httpx.get (Httpx.headers response) "Content-Type")
            (Httpx.get (Httpx.headers response) "X-Request-ID")
            processing_time_ms width height)) s.
Proof.
  intros Hst. unfold after_response. rewrite Hst. reflexivity.
Qed.

End Operations.

(** ** The error-mapping protocol *)

Lemma operations_raise_intro (env : Env) (self : Poof) (response : Httpx.Response)
    (cls : error_class) (e : PoofError) :
  Httpx.status_code response ≠ 200 →
  (∀ s, _handle_error self response s = (Raise (ApiError cls e), s)) →
  operations_raise env self response (ApiError cls e).
Proof.
  intros Hst He. split.
  - intros image format channels bg_color size crop s o s' req Hans.
    apply remove_background_answered in Hans as (part & s1 & _ & _ & _ & Hafter).
    destruct (after_response_error env self response s' cls e Hst He) as [Hrb _].
    rewrite Hrb in Hafter. by injection Hafter as <-.
  - intros s o s' req Hans.
    apply me_answered in Hans as (_ & _ & Hafter).
    destruct (after_response_error env self response s' cls e Hst He) as [_ Hme].
    rewrite Hme in Hafter. by injection Hafter as <-.
Qed.

(** C1. A response with a status other than 200 makes [_handle_error], and
    with it [remove_background] and [me], raise an error of the class
    that the status alone decides: [AuthError] for 401,
    [PaymentRequiredError] for 402, [PermissionDeniedError] for 403,
    [RateLimitError] for 429, [ValidationError] for 400, [ServerError] from
    500 on, and [PoofError] itself for every other status; exactly one
    class fits a status.  The error carries the status of the response and
    the message, code, details and request id read from the body or taken
    from the fallback, and the error path never returns. *)
Theorem error_kind_by_status (env : Env) (self : Poof) (response : Httpx.Response) :
  Httpx.status_code response ≠ 200 →
  ∃ cls e,
    kind_of_status cls (Httpx.status_code response)
    ∧ (∀ cls', kind_of_status cls' (Httpx.status_code response) → cls' = cls)
    ∧ status_code e = Httpx.status_code response
    ∧ match Httpx.json_body response with
      | Some (JObj d) => parsed_fields d e
      | _ => fallback_fields response e
      end
    ∧ (∀ s, _handle_error self response s = (Raise (ApiError cls e), s))
    ∧ operations_raise env self response (ApiError cls e).
Proof.
  intros Hst.
  destruct (handle_error_total self response) as (cls & e & He & Hcode & Hkind & Hf).
  exists cls, e. split; [done |]. split.
  { intros cls' Hkind'. by apply (kind_of_status_unique _ _ _ Hkind'). }
  do 3 (split; [done |]). by apply operations_raise_intro.
Qed.

Lemma error_kind_by_status_witness :
  ∃ e, _handle_error Demo.client (Demo.json_error 401) Demo.state
       = (Raise (ApiError AuthError e), Demo.state)
       ∧ message e = JStr "Invalid API key"
       ∧ status_code e = 401.
Proof.
  destruct (error_kind_by_status (Demo.env (Demo.json_error 401)) Demo.client
              (Demo.json_error 401))
    as (cls & e & Hkind & _ & Hcode & Hfields & Hraise & _).
  { simpl. lia. }
  exists e. destruct cls; simpl in Hkind; try lia.
  split; [apply Hraise |]. split; [| exact Hcode].
  simpl in Hfields. destruct Hfields as (_ & _ & Hmsg & _).
  apply Hmsg. reflexivity.
Defined.

(** C3. When the body of a response with a status other than 200 does not
    parse as JSON, the error raised has the code ["unknown_error"], the
    text of the body as its message, or ["HTTP <status>"] when the text is
    empty, no details, and the value of the [X-Request-ID] header as its
    request id, [None] when the response has no such header. *)
Theorem unparseable_body_fallback (env : Env) (self : Poof)
    (response : Httpx.Response) :
  Httpx.status_code response ≠ 200 →
  Httpx.json_body response = None →
  ∃ cls e,
    (∀ s, _handle_error self response s = (Raise (ApiError cls e), s))
    ∧ operations_raise env self response (ApiError cls e)
    ∧ code e = JStr "unknown_error"
    ∧ (Httpx.text response ≠ "" → message e = JStr (Httpx.text response))
    ∧ (Httpx.text response = "" →
         message e = JStr ("HTTP " +:+ pretty (Httpx.status_code response)))
    ∧ details e = JNull
    ∧ (∀ v, Httpx.get (Httpx.headers response) "X-Request-ID" = Some v →
         request_id e = JStr v)
    ∧ (Httpx.get (Httpx.headers response) "X-Request-ID" = None →
         request_id e = JNull).
Proof.
  intros Hst Hjson.
  destruct (handle_error_total self response) as (cls & e & He & _ & _ & Hf).
  rewrite Hjson in Hf. exists cls, e.
  split; [done |]. split; [by apply operations_raise_intro | exact Hf].
Qed.

Lemma unparseable_body_fallback_witness :
  ∃ cls e, _handle_error Demo.client (Demo.text_error 503 "") Demo.state
           = (Raise (ApiError cls e), Demo.state)
    ∧ code e = JStr "unknown_error"
    ∧ message e = JStr "HTTP 503"
    ∧ details e = JNull
    ∧ request_id e = JStr "hdr_1".
Proof.
  destruct (unparseable_body_fallback (Demo.env (Demo.text_error 503 ""))
              Demo.client (Demo.text_error 503 ""))
    as (cls & e & Hraise & _ & Hcode & _ & Hmsg & Hdet & Hrid & _).
  { simpl. lia. }
  { reflexivity. }
  exists cls, e. split; [apply Hraise |]. split; [exact Hcode |].
  split; [apply Hmsg; reflexivity |]. split; [exact Hdet |].
  apply Hrid. reflexivity.
Defined.

(** A body that parses, but not to an object, takes the fallback as well:
    [error_data.get] fails on it, inside the same [try]. *)
Lemma non_object_body_fallback (self : Poof) (response : Httpx.Response) (v : json) :
  Httpx.json_body response = Some v →
  (∀ d, v ≠ JObj d) →
  ∃ cls e, (∀ s, _handle_error self response s = (Raise (ApiError cls e), s))
    ∧ fallback_fields response e.
Proof.
  intros Hjson Hv.
  destruct (handle_error_total self response) as (cls & e & He & _ & _ & Hf).
  rewrite Hjson in Hf. exists cls, e. split; [done |].
  destruct v; try done. by destruct (Hv members).
Qed.

(** C9. When the body of a response with a status other than 200 parses to
    a JSON object, the error raised has the code ["unknown_error"] if the
    object has no ["code"] and the message ["Unknown error"] if it has no
    ["message"]; its request id is the ["request_id"] of the object, [None]
    when the object has none, whatever the headers of the response are:
    the [X-Request-ID] header is not consulted. *)
Theorem json_object_defaults (env : Env) (self : Poof)
    (response : Httpx.Response) (d : gmap string json) :
  Httpx.status_code response ≠ 200 →
  Httpx.json_body response = Some (JObj d) →
  ∃ cls e,
    (∀ s, _handle_error self response s = (Raise (ApiError cls e), s))
    ∧ operations_raise env self response (ApiError cls e)
    ∧ (d !! "code" = None → code e = JStr "unknown_error")
    ∧ (d !! "message" = None → message e = JStr "Unknown error")
    ∧ (∀ v, d !! "request_id" = Some v → request_id e = v)
    ∧ (d !! "request_id" = None → request_id e = JNull)
    ∧ (∀ hs s, _handle_error self (with_headers hs response) s
               = (Raise (ApiError cls e), s)).
Proof.
  intros Hst Hjson.
  destruct (handle_error_total self response) as (cls & e & He & _ & _ & Hf).
  rewrite Hjson in Hf. exists cls, e.
  split; [done |]. split; [by apply operations_raise_intro |].
  destruct Hf as (_ & Hc & _ & Hm & _ & _ & Hr & Hr0).
  do 4 (split; [done |]).
  intros hs s. rewrite <- (He s).
  unfold _handle_error, with_headers; simpl. by rewrite Hjson.
Qed.

Lemma json_object_defaults_witness :
  ∃ cls e, _handle_error Demo.client (Demo.sparse_error 404) Demo.state
           = (Raise (ApiError cls e), Demo.state)
    ∧ code e = JStr "unknown_error"
    ∧ message e = JStr "Unknown error"
    ∧ request_id e = JNull
    ∧ Httpx.get (Httpx.headers (Demo.sparse_error 404)) "X-Request-ID" = Some "hdr_1".
Proof.
  destruct (json_object_defaults (Demo.env (Demo.sparse_error 404)) Demo.client
              (Demo.sparse_error 404) Demo.sparse_body)
    as (cls & e & Hraise & _ & Hcode & Hmsg & _ & Hrid & _).
  { simpl. lia. }
  { reflexivity. }
  exists cls, e. split; [apply Hraise |].
  split; [apply Hcode; reflexivity |]. split; [apply Hmsg; reflexivity |].
  split; [apply Hrid; reflexivity | reflexivity].
Defined.

(** ** The metadata of a result *)

Lemma header_blank_not_int (env : Env) (v : option string) (n : Z) :
  header_is_blank v → header_is_int env v n → False.
Proof. intros [-> | ->] (t & Ht & Hne & _); by simplify_eq. Qed.

Lemma header_int_functional (env : Env) (v : option string) (n m : Z) :
  header_is_int env v n → header_is_int env v m → n = m.
Proof. intros (t & -> & _ & Hn) (t' & [= <-] & _ & Hm). congruence. Qed.

Lemma field_of_header_blank (env : Env) (v : option string) :
  header_is_blank v → field_of_header env v None.
Proof.
  intros Hb. split; [done |]. intros n Hi.
  destruct (header_blank_not_int env v n Hb Hi).
Qed.

Lemma field_of_header_int (env : Env) (v : option string) (n : Z) :
  header_is_int env v n → field_of_header env v (Some n).
Proof.
  intros Hi. split.
  - intros Hb. destruct (header_blank_not_int env v n Hb Hi).
  - intros m Hm. f_equal. exact (header_int_functional env v n m Hi Hm).
Qed.

Lemma int_or_none_wellformed (env : Env) (v : option string) (s : State) :
  header_is_wellformed env v →
  ∃ f, int_or_none env v s = (Return f, s) ∧ field_of_header env v f.
Proof.
  intros [Hb | [n Hi]].
  - exists None. split; [by apply int_or_none_blank | by apply field_of_header_blank].
  - exists (Some n).
    split; [by apply int_or_none_int | by apply field_of_header_int].
Qed.

Lemma int_or_none_cases (env : Env) (v : option string) (s : State) :
  (∃ f, int_or_none env v s = (Return f, s))
  ∨ (∃ msg, int_or_none env v s = (Raise (ValueError msg), s)).
Proof.
  destruct (header_trichotomy env v) as [Hb | [[n Hi] | Hm]].
  - left. exists None. by apply int_or_none_blank.
  - left. exists (Some n). by apply int_or_none_int.
  - right. by apply int_or_none_malformed.
Qed.

Section OkResponse.

Context (env : Env) (self : Poof) (image : ImageInput)
  (format channels bg_color size : option string) (crop : option bool)
  (s s' : State) (o : outcome RemoveBackgroundResult)
  (req : Httpx.Request) (response : Httpx.Response).

Hypothesis Hanswered :
  answered env
    (remove_background env self image format channels bg_color size crop)
    s o s' req response.
Hypothesis Hok : Httpx.status_code response = 200.

Let time := Httpx.get (Httpx.headers response) "X-Processing-Time-Ms".
Let width := Httpx.get (Httpx.headers response) "X-Image-Width".
Let height := Httpx.get (Httpx.headers response) "X-Image-Height".

Lemma ok_response_steps :
  (let* t := int_or_none env time in
   let* w := int_or_none env width in
   let* h := int_or_none env height in
   ret (mkResult (Httpx.content response)
          (Httpx.get (Httpx.headers response) "Content-Type")
          (Httpx.get (Httpx.headers response) "X-Request-ID") t w h)) s'
  = (o, s').
Proof.
  destruct (remove_background_answered _ _ _ _ _ _ _ _ _ _ _ _ _ Hanswered)
    as (part & s1 & _ & _ & _ & Hafter).
  by rewrite after_response_ok in Hafter.
Qed.

Lemma ok_response_returns :
  header_is_wellformed env time → header_is_wellformed env width →
  header_is_wellformed env height →
  ∃ res, o = Return res
    ∧ res_data res = Httpx.content response
    ∧ field_of_header env time (res_processing_time_ms res)
    ∧ field_of_header env width (res_width res)
    ∧ field_of_header env height (res_height res).
Proof.
  intros Ht Hw Hh. pose proof ok_response_steps as Hsteps.
  unfold bind, ret in Hsteps.
  destruct (int_or_none_wellformed env time s' Ht) as (f1 & E1 & F1).
  destruct (int_or_none_wellformed env width s' Hw) as (f2 & E2 & F2).
  destruct (int_or_none_wellformed env height s' Hh) as (f3 & E3 & F3).
  rewrite E1, E2, E3 in Hsteps. injection Hsteps as <-.
  eexists. split; [reflexivity |]. simpl. by do 3 (split; [done |]).
Qed.

Lemma ok_response_raises :
  header_is_malformed env time ∨ header_is_malformed env width
  ∨ header_is_malformed env height →
  ∃ msg, o = Raise (ValueError msg).
Proof.
  intros Hmal. pose proof ok_response_steps as Hsteps.
  unfold bind, ret in Hsteps.
  destruct (int_or_none_cases env time s') as [[f1 E1] | [msg E1]];
    rewrite E1 in Hsteps; [| injection Hsteps as <-; by eexists].
  destruct (int_or_none_cases env width s') as [[f2 E2] | [msg E2]];
    rewrite E2 in Hsteps; [| injection Hsteps as <-; by eexists].
  destruct (int_or_none_cases env height s') as [[f3 E3] | [msg E3]];
    rewrite E3 in Hsteps; [| injection Hsteps as <-; by eexists].
  destruct Hmal as [Hm | [Hm | Hm]];
    destruct (int_or_none_malformed env _ s' Hm) as [msg E]; congruence.
Qed.

(** The fields of a result are what [int_or_none] returned. *)
Lemma ok_response_fields (res : RemoveBackgroundResult) :
  o = Return res →
  int_or_none env time s' = (Return (res_processing_time_ms res), s')
  ∧ int_or_none env width s' = (Return (res_width res), s')
  ∧ int_or_none env height s' = (Return (res_height res), s').
Proof.
  intros Hres. pose proof ok_response_steps as Hsteps.
  rewrite Hres in Hsteps. unfold bind, ret in Hsteps.
  destruct (int_or_none_cases env time s') as [[f1 E1] | [msg E1]];
    rewrite E1 in Hsteps; [| done].
  destruct (int_or_none_cases env width s') as [[f2 E2] | [msg E2]];
    rewrite E2 in Hsteps; [| done].
  destruct (int_or_none_cases env height s') as [[f3 E3] | [msg E3]];
    rewrite E3 in Hsteps; [| done].
  by injection Hsteps as <-.
Qed.

End OkResponse.

(** C2, as the code has it. On a 200 response [remove_background] reads
    [processing_time_ms], [width] and [height] from the headers
    [X-Processing-Time-Ms], [X-Image-Width] and [X-Image-Height]: a header
    that is missing or empty gives [None] for its field and no error, a
    header that [int] accepts gives that integer, and [data] is the body of
    the response.  A header with a value that [int] rejects is not turned
    into [None]: the call raises the [ValueError] of [int].  What [int]
    accepts is [py_int]: computed for the values that are all ASCII, the
    environment's for the others. *)
Theorem metadata_from_headers (env : Env) (self : Poof) (image : ImageInput)
    (format channels bg_color size : option string) (crop : option bool)
    (s s' : State) (o : outcome RemoveBackgroundResult)
    (req : Httpx.Request) (response : Httpx.Response) :
  answered env
    (remove_background env self image format channels bg_color size crop)
    s o s' req response →
  Httpx.status_code response = 200 →
  let time := Httpx.get (Httpx.headers response) "X-Processing-Time-Ms" in
  let width := Httpx.get (Httpx.headers response) "X-Image-Width" in
  let height := Httpx.get (Httpx.headers response) "X-Image-Height" in
  (header_is_wellformed env time → header_is_wellformed env width →
   header_is_wellformed env height →
   ∃ res, o = Return res
     ∧ res_data res = Httpx.content response
     ∧ field_of_header env time (res_processing_time_ms res)
     ∧ field_of_header env width (res_width res)
     ∧ field_of_header env height (res_height res))
  ∧ (header_is_malformed env time ∨ header_is_malformed env width
     ∨ header_is_malformed env height →
     ∃ msg, o = Raise (ValueError msg)).
Proof.
  intros Hans Hst time width height. split.
  - by apply (ok_response_returns env self image format channels bg_color size
                crop s s' o req response).
  - by apply (ok_response_raises env self image format channels bg_color size
                crop s s' o req response).
Qed.

Lemma demo_upload_answered (r : Httpx.Response) :
  ∃ req, answered (Demo.env r) (Demo.upload r) Demo.state
           (Demo.upload r Demo.state).1 (Demo.upload r Demo.state).2 req r.
Proof.
  destruct (remove_background_sends (Demo.env r) Demo.client (ImgBytes Demo.photo)
              None None None None None Demo.state Demo.state
              ("image", Demo.photo, octet_stream) eq_refl) as (req & _ & Hrun).
  exists req. unfold answered, Demo.upload. rewrite Hrun.
  cbn [http_send Demo.env]. rewrite after_response_state. done.
Defined.

Lemma metadata_from_headers_witness :
  ∃ res s', Demo.upload Demo.sized Demo.state = (Return res, s')
    ∧ res_data res = Demo.cutout
    ∧ res_processing_time_ms res = Some 120
    ∧ res_width res = Some 800
    ∧ res_height res = None.
Proof.
  destruct (demo_upload_answered Demo.sized) as (req & Hans).
  pose proof Hans as (Hrun & _). unfold Demo.upload in Hans at 1.
  destruct (metadata_from_headers _ _ _ _ _ _ _ _ _ _ _ _ _ Hans eq_refl)
    as [Hok _].
  destruct Hok as (res & Ho & Hdata & Htime & Hwidth & Hheight).
  - right. exists 120, "120". by repeat split.
  - right. exists 800, "800". by repeat split.
  - left. by left.
  - exists res, (Demo.upload Demo.sized Demo.state).2.
    split; [by rewrite <- Ho, <- surjective_pairing |].
    split; [exact Hdata |].
    split; [apply Htime; exists "120"; by repeat split |].
    split; [apply Hwidth; exists "800"; by repeat split |].
    apply Hheight. by left.
Defined.

(** The sentence of the specification fails on a width of ["abc"]: the call
    raises, and gives no result. *)
Lemma non_numeric_width_raises : ¬ non_numeric_width_gives_none.
Proof.
  intros Hclaim.
  destruct (demo_upload_answered Demo.bad_width) as (req & Hans).
  unfold Demo.upload in Hans at 1.
  destruct (Hclaim _ _ _ _ _ _ _ _ _ _ _ _ _ Hans eq_refl) as (res & Ho & _).
  - exists "abc". by repeat split.
  - vm_compute in Ho. discriminate Ho.
Qed.

(** What [int] makes of a value that is not all ASCII is the
    environment's to say: a width of [12] after a no-break space, which
    [int] accepts, is read as 12. *)
Example nbsp_width_run :
  (Demo.upload (Demo.ok [("X-Image-Width", String Demo.nbsp "12")]) Demo.state).1
  = Return (mkResult Demo.cutout None None None (Some 12) None).
Proof. vm_compute. reflexivity. Qed.

Example bad_width_run :
  (Demo.upload Demo.bad_width Demo.state).1
  = Raise (ValueError "invalid literal for int() with base 10: 'abc'").
Proof. vm_compute. reflexivity. Qed.

(** ** Headers *)

Lemma get_without_header_same (key : string) (hs : Httpx.Headers) :
  Httpx.get (without_header key hs) key = None.
Proof.
  unfold Httpx.get, without_header.
  assert (filter (λ kv : string * string, PyStr.lower kv.1 = PyStr.lower key)
            (filter (λ kv : string * string, PyStr.lower kv.1 ≠ PyStr.lower key) hs)
          = []) as ->; [| done].
  induction hs as [| kv hs IH]; [done |].
  rewrite (filter_cons _ kv hs). case_decide as Hk; [| exact IH].
  rewrite (filter_cons _ kv (filter _ hs)). by case_decide.
Qed.

Lemma get_without_header_other (key key' : string) (hs : Httpx.Headers) :
  PyStr.lower key ≠ PyStr.lower key' →
  Httpx.get (without_header key hs) key' = Httpx.get hs key'.
Proof.
  intros Hne. unfold Httpx.get, without_header.
  assert (filter (λ kv : string * string, PyStr.lower kv.1 = PyStr.lower key')
            (filter (λ kv : string * string, PyStr.lower kv.1 ≠ PyStr.lower key) hs)
          = filter (λ kv : string * string, PyStr.lower kv.1 = PyStr.lower key') hs)
    as ->; [| done].
  induction hs as [| kv hs IH]; [done |].
  rewrite (filter_cons (λ kv, PyStr.lower kv.1 ≠ PyStr.lower key) kv hs).
  rewrite (filter_cons (λ kv, PyStr.lower kv.1 = PyStr.lower key') kv hs).
  destruct (decide (PyStr.lower kv.1 ≠ PyStr.lower key)) as [Hk | Hk].
  - rewrite (filter_cons _ kv (filter _ hs)).
    destruct (decide (PyStr.lower kv.1 = PyStr.lower key')); [f_equal |]; exact IH.
  - destruct (decide (PyStr.lower kv.1 = PyStr.lower key')) as [Hk' |];
      [| exact IH].
    apply dec_stable in Hk. congruence.
Qed.

Lemma is_remove_request_unique (self : Poof) (part : Httpx.FilePart)
    (format channels bg_color size : option string) (crop : option bool)
    (r1 r2 : Httpx.Request) :
  is_remove_request self part format channels bg_color size crop r1 →
  is_remove_request self part format channels bg_color size crop r2 →
  r1 = r2.
Proof.
  intros (Hm1 & Hu1 & Hh1 & Hf1 & F1 & C1 & B1 & S1 & K1 & O1 & D1)
         (Hm2 & Hu2 & Hh2 & Hf2 & F2 & C2 & B2 & S2 & K2 & O2 & D2).
  assert (Httpx.form_fields r1 = Httpx.form_fields r2) as Hff.
  { apply map_eq. intros k.
    destruct (decide (k ∈ option_fields)) as [Hin | Hout].
    - unfold option_fields in Hin.
      repeat (apply elem_of_cons in Hin as [-> | Hin]; [congruence |]).
      by apply elem_of_nil in Hin.
    - by rewrite O1, O2. }
  destruct r1 as [m1 u1 h1 f1 d1], r2 as [m2 u2 h2 f2 d2].
  unfold Httpx.form_fields in Hff. simpl in *. subst. f_equal.
  destruct d1 as [d1|], d2 as [d2|]; simpl in Hff; congruence.
Qed.

Lemma prepare_image_same_host (env env' : Env) (self : Poof) (image : ImageInput) :
  same_host env env' →
  _prepare_image env' self image = _prepare_image env self image.
Proof.
  intros (He & Hr & Hg & _). unfold _prepare_image. by rewrite He, Hr, Hg.
Qed.

Lemma int_or_none_same_host (env env' : Env) (v : option string) :
  same_host env env' → int_or_none env' v = int_or_none env v.
Proof.
  intros (_ & _ & _ & Hi & Hn & Ht). unfold int_or_none, py_int.
  by rewrite Hi, Hn, Ht.
Qed.

Lemma int_or_none_empty (env : Env) :
  int_or_none env (Some "") = int_or_none env None.
Proof. reflexivity. Qed.

Lemma after_response_without_header (env env' : Env) (self : Poof)
    (response : Httpx.Response) (key : string) (s : State) :
  same_host env env' →
  key ∈ metadata_headers →
  Httpx.status_code response = 200 →
  Httpx.get (Httpx.headers response) key = Some "" →
  after_response env' self (response_without_header key response) s
  = after_response env self response s.
Proof.
  intros Hhost Hkey Hst Hget.
  rewrite !after_response_ok by done.
  rewrite !(int_or_none_same_host env env') by done.
  unfold response_without_header, with_headers; simpl.
  unfold metadata_headers in Hkey.
  repeat (apply elem_of_cons in Hkey as [-> | Hkey]);
    [| | | by apply elem_of_nil in Hkey];
    rewrite !get_without_header_same, ?get_without_header_other by done;
    by rewrite Hget.
Qed.

(** C10. A metadata header that is there with the empty string as its
    value is treated as a missing one: on a 200 response the field of the
    result is [None], the header raises no error (the call returns whenever
    the two other headers are well formed), and the call ends as it does
    when the server sends the same response without that header. *)
Theorem empty_header_as_absent (env env' : Env) (self : Poof) (image : ImageInput)
    (format channels bg_color size : option string) (crop : option bool)
    (s s' : State) (o : outcome RemoveBackgroundResult)
    (req : Httpx.Request) (response : Httpx.Response) (key : string) :
  key ∈ metadata_headers →
  answered env
    (remove_background env self image format channels bg_color size crop)
    s o s' req response →
  Httpx.status_code response = 200 →
  Httpx.get (Httpx.headers response) key = Some "" →
  int_or_none env (Httpx.get (Httpx.headers response) key) s' = (Return None, s')
  ∧ (∀ res, o = Return res → metadata_field key res = None)
  ∧ ((∀ k, k ∈ metadata_headers → k ≠ key →
        header_is_wellformed env (Httpx.get (Httpx.headers response) k)) →
     ∃ res, o = Return res)
  ∧ (same_host env env' →
     http_send env' req = Return (response_without_header key response) →
     remove_background env' self image format channels bg_color size crop s
     = (o, s')).
Proof.
  intros Hkey Hans Hst Hget.
  assert (Hblank : header_is_blank (Httpx.get (Httpx.headers response) key))
    by by right.
  split; [by apply int_or_none_blank |].
  pose proof Hans as Hans'.
  apply remove_background_answered in Hans' as (part & s1 & Hp & Hreq & Hs' & Hafter).
  split; [| split].
  - intros res Hres.
    destruct (ok_response_fields env self image format channels bg_color size crop
                s s' o req response Hans Hst res Hres) as (E1 & E2 & E3).
    unfold metadata_headers in Hkey. unfold metadata_field.
    repeat (apply elem_of_cons in Hkey as [-> | Hkey]);
      [| | | by apply elem_of_nil in Hkey]; simpl;
      match goal with
      | E : int_or_none _ _ _ = (Return ?f, _) |- ?f = None =>
          rewrite (int_or_none_blank env _ s' Hblank) in E; congruence
      end.
  - intros Hothers.
    assert (∀ k, k ∈ metadata_headers →
              header_is_wellformed env (Httpx.get (Httpx.headers response) k)) as Hall.
    { intros k Hk. destruct (decide (k = key)) as [-> | Hne]; [by left | auto]. }
    destruct (ok_response_returns env self image format channels bg_color
                size crop s s' o req response Hans Hst) as (res & -> & _).
    + apply Hall. unfold metadata_headers. rewrite !elem_of_cons. auto.
    + apply Hall. unfold metadata_headers. rewrite !elem_of_cons. auto.
    + apply Hall. unfold metadata_headers. rewrite !elem_of_cons. auto.
    + by exists res.
  - intros Hhost Hsend.
    rewrite <- (prepare_image_same_host env env' self image Hhost) in Hp.
    destruct (remove_background_sends env' self image format channels bg_color size
                crop s s1 part Hp) as (req' & Hreq' & ->).
    rewrite (is_remove_request_unique _ _ _ _ _ _ _ _ _ Hreq' Hreq), Hsend.
    rewrite (after_response_without_header env env') by done.
    by rewrite <- Hs'.
Qed.

Lemma empty_header_as_absent_witness :
  ∃ res s', Demo.upload Demo.empty_width Demo.state = (Return res, s')
    ∧ res_width res = None
    ∧ Demo.upload (response_without_header "X-Image-Width" Demo.empty_width)
        Demo.state = (Return res, s').
Proof.
  destruct (demo_upload_answered Demo.empty_width) as (req & Hans).
  pose proof Hans as (Hrun & _). unfold Demo.upload in Hans at 1.
  destruct (empty_header_as_absent (Demo.env Demo.empty_width)
              (Demo.env (response_without_header "X-Image-Width" Demo.empty_width))
              _ _ _ _ _ _ _ _ _ _ _ _ "X-Image-Width"
              ltac:(unfold metadata_headers; rewrite !elem_of_cons; auto)
              Hans eq_refl eq_refl)
    as (_ & Hnone & Hret & Hsame).
  destruct Hret as (res & Ho).
  { intros k Hk Hne. unfold metadata_headers in Hk.
    repeat (apply elem_of_cons in Hk as [-> | Hk]).
    - right. exists 120, "120". by repeat split.
    - done.
    - left. by left.
    - by apply elem_of_nil in Hk. }
  exists res, (Demo.upload Demo.empty_width Demo.state).2.
  split; [by rewrite <- Ho, <- surjective_pairing |].
  split; [exact (Hnone res Ho) |].
  rewrite <- Ho. apply Hsame; [by repeat split | reflexivity].
Defined.

(** ** The request of [remove_background] *)

(** C4. A call of [remove_background] whose image resolves sends one
    request.  Its multipart body has exactly one file part, named
    [image_file], which is the resolved image, and one form field for each
    option that is set: [format], [channels], [bg_color] and [size] with the
    string given, [crop] as ["true"] or ["false"].  An option left out gives
    no form field, there is no field of another name, and no empty form is
    passed.  A call whose image does not resolve sends nothing. *)
Theorem multipart_body_fields (env : Env) (self : Poof) (image : ImageInput)
    (format channels bg_color size : option string) (crop : option bool)
    (s s' : State) (o : outcome RemoveBackgroundResult) :
  remove_background env self image format channels bg_color size crop s = (o, s') →
  match _prepare_image env self image s with
  | (Return part, _) =>
      ∃ req, net_calls s' = net_calls s ++ [req]
        ∧ Httpx.method req = Httpx.POST
        ∧ Httpx.files req = Some {[ "image_file" := part ]}
        ∧ base.size (Httpx.file_parts req) = 1%nat
        ∧ Httpx.form_fields req !! "format" = format
        ∧ Httpx.form_fields req !! "channels" = channels
        ∧ Httpx.form_fields req !! "bg_color" = bg_color
        ∧ Httpx.form_fields req !! "size" = size
        ∧ Httpx.form_fields req !! "crop"
          = (λ b : bool, if b then "true" else "false") <$> crop
        ∧ (∀ k, k ∉ option_fields → Httpx.form_fields req !! k = None)
        ∧ Httpx.data req ≠ Some ∅
  | (Raise e, _) => o = Raise e ∧ net_calls s' = net_calls s
  end.
Proof.
  intros Hrun.
  destruct (_prepare_image env self image s) as [[part | e] s1] eqn:Hp.
  - destruct (prepare_image_frame _ _ _ _ _ _ Hp) as (_ & Hnet & _).
    destruct (remove_background_sends env self image format channels bg_color size
                crop s s1 part Hp)
      as (req & (Hm & _ & _ & Hf & Hfields) & Heq).
    rewrite Hrun in Heq. exists req. split.
    { destruct (http_send env req).
      - rewrite after_response_state in Heq. injection Heq as _ ->.
        simpl. by rewrite Hnet.
      - injection Heq as _ ->. simpl. by rewrite Hnet. }
    split; [done |]. split; [done |]. split; [| done].
    unfold Httpx.file_parts. rewrite Hf. simpl. apply map_size_singleton.
  - rewrite (remove_background_prepare_fails env self image format channels bg_color
               size crop s s1 e Hp) in Hrun.
    injection Hrun as <- <-.
    by destruct (prepare_image_frame _ _ _ _ _ _ Hp) as (_ & Hnet & _).
Qed.

Lemma multipart_body_fields_witness :
  ∃ req, net_calls (Demo.upload_webp Demo.sized Demo.state).2 = [req]
    ∧ Httpx.files req
      = Some {[ "image_file" := ("photo.jpg", Demo.photo, "image/jpeg") ]}
    ∧ Httpx.form_fields req !! "format" = Some "webp"
    ∧ Httpx.form_fields req !! "crop" = Some "true"
    ∧ Httpx.form_fields req !! "size" = None.
Proof.
  destruct (multipart_body_fields (Demo.env Demo.sized) Demo.client
              (ImgStr "photo.jpg") (Some "webp") None None None (Some true)
              Demo.state (Demo.upload_webp Demo.sized Demo.state).2
              (Demo.upload_webp Demo.sized Demo.state).1)
    as (req & Hnet & _ & Hfiles & _ & Hformat & _ & _ & Hsize & Hcrop & _).
  { unfold Demo.upload_webp. apply surjective_pairing. }
  exists req. by repeat split.
Defined.




(** An [IOBase] without a [read] gets as far as [image.read()]. *)
Lemma no_read_raises_attribute_error (env : Env) (self : Poof) (type_name : string)
    (format channels bg_color size : option string) (crop : option bool)
    (s : State) :
  remove_background env self (ImgNoRead type_name) format channels bg_color size
    crop s
  = (Raise (AttributeError ("'" +:+ type_name +:+ "' object has no attribute 'read'")),
     s).
Proof. by apply remove_background_prepare_fails. Qed.



Example long_name_run :
  path_present (Demo.env Demo.sized) (Pathlib.str (Pathlib.Path Demo.long_name)) = false
  ∧ remove_background (Demo.env Demo.sized) Demo.client (ImgStr Demo.long_name)
      None None None None None Demo.state
    = (Raise (OSError "[Errno 36] File name too long"), Demo.state).
Proof. split; vm_compute; reflexivity. Qed.


(** ** Construction and teardown *)

Lemma rstrip_spec (c : ascii) (s : string) :
  PyStr.ends_with c (PyStr.rstrip (PyStr.is_char c) s) = false
  ∧ ∃ n, s = PyStr.rstrip (PyStr.is_char c) s +:+ PyStr.repeat c n.
Proof.
  induction s as [| a s [Hend [n Hs]]]; [split; [done | by exists 0%nat] |].
  cbn [PyStr.rstrip]. destruct (PyStr.rstrip (PyStr.is_char c) s) as [| b r] eqn:Hr.
  - unfold PyStr.is_char. destruct (Ascii.eqb_spec c a) as [<- | Hne].
    + split; [done |]. exists (S n). by rewrite Hs at 1.
    + split.
      * simpl. destruct (Ascii.eqb_spec a c); [congruence | done].
      * exists n. by rewrite Hs at 1.
  - split; [exact Hend |]. exists n. by rewrite Hs at 1.
Qed.

(** C6. [Poof("")] raises at once: the state is as before, so no handle
    was made and no network call.  With a key that is not empty the
    construction returns a client that holds the key and the base URL
    without its trailing slashes: the stored URL does not end with a slash,
    and the URL given is the stored one followed by slashes only. *)
Theorem init_checks_api_key (base_url : string) (timeout : Q)
    (httpx_client : option nat) (s : State) :
  __init__ "" base_url timeout httpx_client s
  = (Raise (ValueError "api_key is required"), s)
  ∧ ∀ api_key, api_key ≠ "" →
      ∃ c s', __init__ api_key base_url timeout httpx_client s = (Return c, s')
        ∧ _api_key c = api_key
        ∧ PyStr.ends_with "/" (_base_url c) = false
        ∧ (∃ n, base_url = _base_url c +:+ PyStr.repeat "/" n)
        ∧ net_calls s' = net_calls s.
Proof.
  split; [reflexivity |].
  intros api_key Hkey. unfold __init__.
  destruct api_key as [| a rest]; [done |]. cbn [PyStr.truthy negb].
  destruct (rstrip_spec "/" base_url) as [Hend Hrep].
  destruct httpx_client as [h |]; eexists _, _; (split; [reflexivity |]); done.
Qed.

Lemma init_checks_api_key_witness :
  ∃ c s', __init__ "key" "https://api.poof.bg/v1/" DEFAULT_TIMEOUT None Demo.state
          = (Return c, s')
    ∧ _base_url c = "https://api.poof.bg/v1".
Proof.
  destruct (init_checks_api_key "https://api.poof.bg/v1/" DEFAULT_TIMEOUT None
              Demo.state) as [_ Hinit].
  destruct (Hinit "key") as (c & s' & Hrun & _); [done |].
  exists c, s'. split; [exact Hrun |].
  vm_compute in Hrun. by injection Hrun as <- _.
Defined.

(** C7. A client closes its transport handle exactly when it made the
    handle itself.  Built without a handle, the client makes a new one,
    which no caller holds, and [close] closes it and changes nothing else.
    Built on a handle of the caller, [close] changes nothing at all: the
    handle is as the caller left it.  [__exit__] is [close], and leaving a
    [with] block runs it after the body, whether the body returned or
    raised. *)
Theorem close_only_own_handle (api_key base_url : string) (timeout : Q)
    (httpx_client : option nat) (s s1 : State) (c : Poof) :
  __init__ api_key base_url timeout httpx_client s = (Return c, s1) →
  __exit__ c = close c
  ∧ (∀ (A : Type) (body : Poof → M A) (s2 : State),
       with_ c body s2 = ((body c s2).1, (close c (body c s2).2).2))
  ∧ match httpx_client with
    | None =>
        _owns_client c = true
        ∧ handles s !! _client c = None
        ∧ handles s1 !! _client c = Some (Httpx.mkClient timeout false)
        ∧ ∀ s2, ∃ s3,
            close c s2 = (Return tt, s3)
            ∧ handles s3 !! _client c
              = (λ h, Httpx.mkClient (Httpx.timeout h) true) <$> handles s2 !! _client c
            ∧ (∀ j, j ≠ _client c → handles s3 !! j = handles s2 !! j)
            ∧ streams s3 = streams s2
            ∧ net_calls s3 = net_calls s2
    | Some h =>
        _owns_client c = false
        ∧ _client c = h
        ∧ s1 = s
        ∧ ∀ s2, close c s2 = (Return tt, s2)
    end.
Proof.
  intros Hinit. split; [reflexivity |].
  unfold __init__ in Hinit.
  destruct (negb (PyStr.truthy api_key)); [done |].
  split.
  - intros A body s2. unfold with_, __enter__, __exit__, ret.
    destruct (body c s2) as [r s3]. unfold close.
    destruct (_owns_client c); reflexivity.
  - destruct httpx_client as [h |]; run_step; injection Hinit as <- <-; simpl.
    + done.
    + split; [done |]. split; [by apply lookup_ge_None_2 |].
      split; [by rewrite lookup_app_r, Nat.sub_diag |].
      intros s2. eexists. split; [reflexivity |]. simpl.
      split; [apply list_lookup_alter_eq |].
      split; [| done]. intros j Hj. by apply list_lookup_alter_ne.
Qed.

Lemma close_only_own_handle_witness :
  (∃ c s1 s2, __init__ "key" DEFAULT_BASE_URL DEFAULT_TIMEOUT None Demo.state
              = (Return c, s1)
     ∧ close c s1 = (Return tt, s2)
     ∧ Httpx.is_closed <$> handles s2 !! _client c = Some true
     ∧ Httpx.is_closed <$> handles s2 !! 0%nat = Some false)
  ∧ (∃ c s1, __init__ "key" DEFAULT_BASE_URL DEFAULT_TIMEOUT (Some 0%nat) Demo.state
             = (Return c, s1)
     ∧ close c s1 = (Return tt, Demo.state)).
Proof.
  split.
  - destruct (__init__ "key" DEFAULT_BASE_URL DEFAULT_TIMEOUT None Demo.state)
      as [[c | e] s1] eqn:Hinit; [| discriminate Hinit].
    destruct (close_only_own_handle _ _ _ _ _ _ _ Hinit)
      as (_ & _ & _ & _ & Hnew & Hclose).
    destruct (Hclose s1) as (s2 & Hrun & Hown & Hother & _).
    exists c, s1, s2. split; [reflexivity |]. split; [exact Hrun |].
    split.
    + rewrite Hown, Hnew. reflexivity.
    + injection Hinit as <- <-. by rewrite Hother.
  - destruct (__init__ "key" DEFAULT_BASE_URL DEFAULT_TIMEOUT (Some 0%nat) Demo.state)
      as [[c | e] s1] eqn:Hinit; [| discriminate Hinit].
    destruct (close_only_own_handle _ _ _ _ _ _ _ Hinit)
      as (_ & _ & _ & _ & Hsame & Hclose).
    exists c, s1. split; [reflexivity |]. by rewrite Hclose, Hsame.
Defined.

(** ** The resolved image *)

Lemma or_else_truthy (x : option string) (d : string) :
  PyStr.truthy d = true → PyStr.truthy (PyStr.or_else x d) = true.
Proof.
  intros Hd. unfold PyStr.or_else.
  destruct x as [t |]; [| done]. by destruct (PyStr.truthy t) eqn:Ht.
Qed.

Lemma or_else_some (t d : string) :
  t ≠ "" → PyStr.or_else (Some t) d = t.
Proof. intros Ht. by destruct t. Qed.

Lemma prepare_image_returns (env : Env) (self : Poof) (image : ImageInput)
    (s s' : State) (filename : string) (data : list byte) (content_type : string) :
  _prepare_image env self image s = (Return (filename, data, content_type), s') →
  (∃ b, image = ImgBytes b ∧ filename = "image" ∧ data = b
        ∧ content_type = octet_stream)
  ∨ ((∀ b, image ≠ ImgBytes b)
     ∧ content_type = PyStr.or_else (guess_type env filename) octet_stream).
Proof.
  assert (Hpath : ∀ p,
    (let* found := lift (path_exists env (Pathlib.str p)) in
     if negb found
     then raise (FileNotFoundError ("Image file not found: " +:+ Pathlib.str p))
     else let* data := lift (path_read_bytes env (Pathlib.str p)) in
          ret (Pathlib.name p, data,
               PyStr.or_else (guess_type env (Pathlib.name p)) octet_stream)) s
    = (Return (filename, data, content_type), s') →
    content_type = PyStr.or_else (guess_type env filename) octet_stream).
  { intros p. run_step. repeat case_match; by intros [= <- _ <- _]. }
  destruct image as [raw | p | b | l | ty0 | ty]; cbn [_prepare_image].
  - intros ->%Hpath. by right.
  - intros ->%Hpath. by right.
  - intros [= <- <- <- _]. left. by exists b.
  - unfold bind, stream_read, stream_getattr_name, ret.
    destruct (streams s !! l) as [st |]; [| done].
    intros [= <- _ <- _]. by right.
  - done.
  - done.
Qed.

(** C8. Each supported image resolves: a path that exists and can be read,
    a byte buffer and an open stream give a triple of a file name, the
    bytes and a content type.  The content type of a triple is never
    missing, nor empty: it is [application/octet-stream] for a byte buffer
    and whenever [mimetypes] has no guess for the file name, and the guess
    otherwise.  Resolution leaves the storage of the caller as it was: the
    bytes of every stream are unchanged (reading moves the position of the
    stream only), and so are the handles and the log of network calls; the
    filesystem is only read. *)
Theorem prepare_image_content_type (env : Env) (self : Poof) (image : ImageInput)
    (s : State) :
  (∀ filename data content_type s',
     _prepare_image env self image s = (Return (filename, data, content_type), s') →
     PyStr.truthy content_type = true
     ∧ (guess_type env filename = None → content_type = octet_stream)
     ∧ (∀ b, image = ImgBytes b → content_type = octet_stream ∧ data = b)
     ∧ (∀ t, (∀ b, image ≠ ImgBytes b) → guess_type env filename = Some t →
             t ≠ "" → content_type = t)
     ∧ stream_buf <$> streams s' = stream_buf <$> streams s
     ∧ handles s' = handles s
     ∧ net_calls s' = net_calls s)
  ∧ (∀ p data, image_path image = Some p →
       path_exists env (Pathlib.str p) = Return true →
       path_read_bytes env (Pathlib.str p) = Return data →
       ∃ content_type,
         _prepare_image env self image s
         = (Return (Pathlib.name p, data, content_type), s))
  ∧ (∀ b, image = ImgBytes b →
       _prepare_image env self image s = (Return ("image", b, octet_stream), s))
  ∧ (∀ l st, image = ImgStream l → streams s !! l = Some st →
       ∃ filename content_type s',
         _prepare_image env self image s
         = (Return (filename, drop (stream_pos st) (stream_buf st), content_type), s')
         ∧ streams s' !! l
           = Some (mkStream (stream_buf st)
                     (Nat.max (stream_pos st) (length (stream_buf st)))
                     (stream_name st))).
Proof.
  split; [| split; [| split]].
  - intros filename data content_type s' Hrun.
    destruct (prepare_image_frame _ _ _ _ _ _ Hrun) as (Hh & Hn & Hb & _).
    apply prepare_image_returns in Hrun as [(b & -> & -> & -> & ->) | [Hnb ->]].
    + split; [done |]. split; [done |].
      split; [by intros b' [= ->] |].
      split; [| done]. intros t Hnb. by destruct (Hnb b).
    + split; [by apply or_else_truthy |].
      split; [by intros -> |].
      split; [intros b ->; by destruct (Hnb b) |].
      split; [| done]. intros t _ -> Ht. by apply or_else_some.
  - intros p data Hpath Hexists Hread.
    exists (PyStr.or_else (guess_type env (Pathlib.name p)) octet_stream).
    destruct image; simplify_eq/=; run_step; by rewrite Hexists, Hread.
  - by intros b ->.
  - intros l st -> Hl. cbn [_prepare_image].
    unfold bind, stream_read, stream_getattr_name, ret. rewrite Hl.
    eexists _, _, _. split; [reflexivity |]. simpl.
    apply list_lookup_insert_eq. by apply lookup_lt_Some in Hl.
Qed.

Lemma prepare_image_content_type_witness :
  _prepare_image (Demo.env Demo.sized) Demo.client (ImgStr "photo.jpg") Demo.state
  = (Return ("photo.jpg", Demo.photo, "image/jpeg"), Demo.state)
  ∧ ∃ s', _prepare_image (Demo.env Demo.sized) Demo.client (ImgStream 0%nat)
            Demo.state
          = (Return ("photo.jpg", [xff; xe0], "image/jpeg"), s')
       ∧ stream_buf <$> streams s' = stream_buf <$> streams Demo.state.
Proof.
  split.
  - destruct (prepare_image_content_type (Demo.env Demo.sized) Demo.client
                (ImgStr "photo.jpg") Demo.state) as (Hct & Hpath & _).
    destruct (Hpath (Pathlib.Path "photo.jpg") Demo.photo eq_refl eq_refl eq_refl)
      as (content_type & Hrun).
    destruct (Hct _ _ _ _ Hrun) as (_ & _ & _ & Hguess & _).
    rewrite Hrun. do 3 f_equal.
    apply Hguess; [intros b; discriminate | reflexivity | discriminate].
  - destruct (prepare_image_content_type (Demo.env Demo.sized) Demo.client
                (ImgStream 0%nat) Demo.state) as (Hct & _ & _ & Hstream).
    destruct (Hstream 0%nat _ eq_refl eq_refl)
      as (filename & content_type & s' & Hrun & _).
    destruct (Hct _ _ _ _ Hrun) as (_ & _ & _ & _ & Hbuf & _).
    exists s'. split; [| exact Hbuf].
    rewrite Hrun. vm_compute in Hrun. by injection Hrun as <- <- _.
Defined.

(** ** The helpers on concrete inputs *)

Example lower_True : PyStr.lower (PyStr.of_bool true) = "true".
Proof. reflexivity. Qed.

Example rstrip_slashes :
  PyStr.rstrip (PyStr.is_char "/") "https://api.poof.bg/v1//" = "https://api.poof.bg/v1".
Proof. reflexivity. Qed.

Example int_120 : PyStr.int 4300 Demo.non_ascii "120" = Some 120.
Proof. reflexivity. Qed.

Example int_padded : PyStr.int 4300 Demo.non_ascii "  -1_000 " = Some (-1000).
Proof. reflexivity. Qed.

Example int_leading_zeros : PyStr.int 4300 Demo.non_ascii "007" = Some 7.
Proof. reflexivity. Qed.

Example int_float_literal : PyStr.int 4300 Demo.non_ascii "12.5" = None.
Proof. reflexivity. Qed.

Example int_double_underscore : PyStr.int 4300 Demo.non_ascii "1__0" = None.
Proof. reflexivity. Qed.

Example int_sign_only : PyStr.int 4300 Demo.non_ascii "-" = None.
Proof. reflexivity. Qed.

Example int_spaces_only : PyStr.int 4300 Demo.non_ascii "  " = None.
Proof. reflexivity. Qed.

Example path_name_nested : Pathlib.name (Pathlib.Path "/tmp//upload/./photo.jpg") = "photo.jpg".
Proof. reflexivity. Qed.

Example path_name_trailing_slash : Pathlib.name (Pathlib.Path "shots/") = "shots".
Proof. reflexivity. Qed.

Example path_str_normalises : Pathlib.str (Pathlib.Path "a//b/./c") = "a/b/c".
Proof. reflexivity. Qed.

Example path_str_empty : Pathlib.str (Pathlib.Path "") = ".".
Proof. reflexivity. Qed.

Example path_str_root : Pathlib.str (Pathlib.Path "///etc") = "/etc".
Proof. reflexivity. Qed.

Example headers_get_any_case :
  Httpx.get [("x-image-width", "800")] "X-Image-Width" = Some "800".
Proof. reflexivity. Qed.

Example headers_get_joins :
  Httpx.get [("X-Image-Width", "800"); ("x-image-width", "600")] "X-Image-Width"
  = Some "800, 600".
Proof. reflexivity. Qed.

Example headers_get_missing : Httpx.get [("Content-Type", "image/png")] "X-Request-ID" = None.
Proof. reflexivity. Qed.

Example get_headers_demo :
  _get_headers Demo.client !! "User-Agent" = Some "poof-python/0.1.0".
Proof. reflexivity. Qed.

Example me_returns_body :
  (me (Demo.env (Demo.of_text 200 [] "{}" (Some (JObj ∅)))) Demo.client Demo.state).1
  = Return (JObj ∅).
Proof. reflexivity. Qed.

Example me_unauthorized :
  ∃ e, (me (Demo.env (Demo.json_error 401)) Demo.client Demo.state).1
       = Raise (ApiError AuthError e)
    ∧ request_id e = JStr "req_1".
Proof. eexists. split; reflexivity. Qed.

Example status_404_is_generic :
  ∃ e, _handle_error Demo.client (Demo.text_error 404 "Not Found") Demo.state
       = (Raise (ApiError PoofErrorBase e), Demo.state)
    ∧ message e = JStr "Not Found".
Proof. eexists. split; reflexivity. Qed.

(** * Further properties of the client *)

(** ** What a call does to the state *)

Lemma prepare_image_other_streams (env : Env) (self : Poof) (image : ImageInput)
    (s s' : State) (o : outcome Httpx.FilePart) (j : nat) :
  _prepare_image env self image s = (o, s') →
  image ≠ ImgStream j →
  streams s' !! j = streams s !! j.
Proof.
  intros Hrun Hj.
  assert (Hs : (∀ l, image ≠ ImgStream l) → s' = s).
  { intros Hno. destruct image as [raw | p | b | l | ty0 | ty]; cbn [_prepare_image] in Hrun.
    - run_step. repeat case_match; by injection Hrun as _ <-.
    - run_step. repeat case_match; by injection Hrun as _ <-.
    - by injection Hrun as _ <-.
    - by destruct (Hno l).
    - by injection Hrun as _ <-.
    - by injection Hrun as _ <-. }
  destruct image as [raw | p | b | l | ty0 | ty]; try (by rewrite Hs).
  cbn [_prepare_image] in Hrun.
  unfold bind, stream_read, stream_getattr_name, ret in Hrun.
  destruct (streams s !! l) as [st |]; injection Hrun as _ <-; [| done].
  simpl. apply list_lookup_insert_ne. congruence.
Qed.

(** The state after [remove_background]: that after the resolution of the
    image, with the request logged when there was one. *)
Lemma remove_background_effect (env : Env) (self : Poof) (image : ImageInput)
    (format channels bg_color size : option string) (crop : option bool)
    (s s' : State) (o : outcome RemoveBackgroundResult) :
  remove_background env self image format channels bg_color size crop s = (o, s') →
  (∃ e, _prepare_image env self image s = (Raise e, s') ∧ o = Raise e)
  ∨ (∃ part s1 req,
       _prepare_image env self image s = (Return part, s1)
       ∧ is_remove_request self part format channels bg_color size crop req
       ∧ s' = log_call req s1
       ∧ match http_send env req with
         | Return response => after_response env self response s' = (o, s')
         | Raise e => o = Raise e
         end).
Proof.
  intros Hrun.
  destruct (_prepare_image env self image s) as [[part | e] s1] eqn:Hp.
  - right.
    destruct (remove_background_sends env self image format channels bg_color size
                crop s s1 part Hp) as (req & Hreq & Heq).
    rewrite Hrun in Heq. exists part, s1, req. split; [done |]. split; [done |].
    destruct (http_send env req).
    + rewrite after_response_state in Heq. injection Heq as -> ->.
      split; [done | apply after_response_state].
    + by injection Heq as -> ->.
  - left. exists e.
    rewrite (remove_background_prepare_fails env self image format channels bg_color
               size crop s s1 e Hp) in Hrun.
    by injection Hrun as <- <-.
Qed.

(** X2. Neither operation retries, and neither touches a transport handle.
    [remove_background] makes exactly one network call when the image
    resolves, and none, raising what the resolution raised, when it does
    not; it changes nothing of the state but the log and the read position
    of the stream it was given.  [me] makes exactly one call and changes
    nothing but the log. *)
Theorem operations_call_once (env : Env) (self : Poof) (image : ImageInput)
    (format channels bg_color size : option string) (crop : option bool)
    (s : State) :
  (∀ o s',
     remove_background env self image format channels bg_color size crop s = (o, s') →
     match _prepare_image env self image s with
     | (Return part, _) =>
         ∃ req, calls_made s s' [req]
           ∧ Httpx.files req = Some {[ "image_file" := part ]}
     | (Raise e, _) => calls_made s s' [] ∧ o = Raise e
     end
     ∧ handles s' = handles s
     ∧ (∀ j, image ≠ ImgStream j → streams s' !! j = streams s !! j)
     ∧ stream_buf <$> streams s' = stream_buf <$> streams s
     ∧ stream_name <$> streams s' = stream_name <$> streams s)
  ∧ (∀ o s', me env self s = (o, s') →
       calls_made s s' [me_request self]
       ∧ handles s' = handles s
       ∧ streams s' = streams s).
Proof.
  split.
  - intros o s' Hrun.
    apply remove_background_effect in Hrun
      as [(e & Hp & ->) | (part & s1 & req & Hp & Hreq & -> & _)];
      rewrite Hp;
      destruct (prepare_image_frame _ _ _ _ _ _ Hp) as (Hh & Hn & Hb & Hname).
    + split; [split; [unfold calls_made; by rewrite Hn, app_nil_r | done] |].
      split; [done |]. split; [| done].
      intros j Hj. by apply (prepare_image_other_streams _ _ _ _ _ _ _ Hp).
    + split.
      { exists req. split; [unfold calls_made; simpl; by rewrite Hn |].
        by destruct Hreq as (_ & _ & _ & Hfiles & _). }
      split; [done |]. split; [| done].
      intros j Hj. by apply (prepare_image_other_streams _ _ _ _ _ _ _ Hp).
  - intros o s' Hrun. rewrite me_sends in Hrun.
    assert (s' = log_call (me_request self) s) as ->; [| done].
    destruct (http_send env (me_request self)).
    + rewrite after_me_response_state in Hrun. by injection Hrun as _ <-.
    + by injection Hrun as _ <-.
Qed.

Lemma operations_call_once_witness :
  (∃ req, calls_made Demo.state (Demo.upload Demo.bad_width Demo.state).2 [req])
  ∧ calls_made Demo.state
      (remove_background (Demo.env Demo.sized) Demo.client (ImgStr "missing.png")
         None None None None None Demo.state).2 []
  ∧ calls_made Demo.state (me (Demo.env (Demo.json_error 401)) Demo.client Demo.state).2
      [me_request Demo.client].
Proof.
  destruct (operations_call_once (Demo.env Demo.bad_width) Demo.client
              (ImgBytes Demo.photo) None None None None None Demo.state)
    as [Hrb _].
  destruct (operations_call_once (Demo.env Demo.sized) Demo.client
              (ImgStr "missing.png") None None None None None Demo.state)
    as [Hmissing _].
  destruct (operations_call_once (Demo.env (Demo.json_error 401)) Demo.client
              (ImgBytes Demo.photo) None None None None None Demo.state)
    as [_ Hme].
  split; [| split].
  - destruct (Hrb _ _ (surjective_pairing _)) as ((req & Hcalls & _) & _).
    by exists req.
  - by destruct (Hmissing _ _ (surjective_pairing _)) as ((Hcalls & _) & _).
  - by destruct (Hme _ _ (surjective_pairing _)) as (Hcalls & _).
Defined.

(** The one request of a call of [remove_background]. *)
Lemma remove_background_request (env : Env) (self : Poof) (image : ImageInput)
    (format channels bg_color size : option string) (crop : option bool)
    (s s' : State) (o : outcome RemoveBackgroundResult) (req : Httpx.Request) :
  remove_background env self image format channels bg_color size crop s = (o, s') →
  calls_made s s' [req] →
  ∃ part s1,
    _prepare_image env self image s = (Return part, s1)
    ∧ is_remove_request self part format channels bg_color size crop req
    ∧ s' = log_call req s1
    ∧ match http_send env req with
      | Return response => after_response env self response s' = (o, s')
      | Raise e => o = Raise e
      end.
Proof.
  intros Hrun Hcalls. unfold calls_made in Hcalls.
  apply remove_background_effect in Hrun
    as [(e0 & Hp & _) | (part & s1 & req0 & Hp & Hreq & -> & Hout)];
    destruct (prepare_image_frame _ _ _ _ _ _ Hp) as (_ & Hn & _).
  - rewrite Hn in Hcalls. apply (f_equal length) in Hcalls.
    rewrite length_app in Hcalls. simpl in Hcalls. lia.
  - simpl in Hcalls. rewrite Hn in Hcalls.
    apply app_inj_tail in Hcalls as [_ ->]. by exists part, s1.
Qed.

Lemma me_request_unique (env : Env) (self : Poof) (s s' : State) (o : outcome json)
    (req : Httpx.Request) :
  me env self s = (o, s') → calls_made s s' [req] → req = me_request self.
Proof.
  intros Hrun Hcalls. unfold calls_made in Hcalls. rewrite me_sends in Hrun.
  assert (s' = log_call (me_request self) s) as ->.
  { destruct (http_send env (me_request self)).
    - rewrite after_me_response_state in Hrun. by injection Hrun as _ <-.
    - by injection Hrun as _ <-. }
  simpl in Hcalls. by apply app_inj_tail in Hcalls as [_ ->].
Qed.

(** ** Failures of the transport *)

(** X3. A failure of the transport (a timeout, a refused connection) is
    not caught and not wrapped: when the one request of an operation fails
    with [e], the operation raises [e] itself, and no further call is
    made. *)
Theorem transport_failure_propagates (env : Env) (self : Poof) (image : ImageInput)
    (format channels bg_color size : option string) (crop : option bool)
    (s : State) (req : Httpx.Request) (e : exn) :
  http_send env req = Raise e →
  (∀ o s',
     remove_background env self image format channels bg_color size crop s = (o, s') →
     calls_made s s' [req] → o = Raise e)
  ∧ (∀ o s', me env self s = (o, s') → req = me_request self →
       o = Raise e ∧ calls_made s s' [req]).
Proof.
  intros Hsend. split.
  - intros o s' Hrun Hcalls.
    destruct (remove_background_request _ _ _ _ _ _ _ _ _ _ _ _ Hrun Hcalls)
      as (part & s1 & _ & _ & _ & Hout).
    by rewrite Hsend in Hout.
  - intros o s' Hrun ->. rewrite me_sends, Hsend in Hrun.
    by injection Hrun as <- <-.
Qed.

Lemma transport_failure_propagates_witness :
  (me (Demo.env_on Demo.read_bytes (Raise (TransportError "timed out")))
      Demo.client Demo.state).1
  = Raise (TransportError "timed out").
Proof.
  destruct (transport_failure_propagates
              (Demo.env_on Demo.read_bytes (Raise (TransportError "timed out")))
              Demo.client (ImgBytes Demo.photo) None None None None None
              Demo.state (me_request Demo.client) (TransportError "timed out")
              eq_refl) as [_ Hme].
  by destruct (Hme _ _ (surjective_pairing _) eq_refl) as [Ho _].
Defined.

(** ** What is sent *)

Lemma get_headers_lookup (self : Poof) (k : string) :
  _get_headers self !! k
  = if decide (k = "x-api-key") then Some (_api_key self)
    else if decide (k = "User-Agent") then Some ("poof-python/0.1.0")
    else None.
Proof.
  unfold _get_headers. repeat case_decide; by simplify_map_eq.
Qed.

(** X1. Every request of a client carries its credentials and nothing
    else: the headers are [x-api-key], with the key that the client was
    built with, and [User-Agent], with [poof-python/0.1.0].  The URL is
    the base URL given to the constructor without its trailing slashes,
    followed by [/remove] for [remove_background], a POST, and by [/me] for
    [me], a GET with neither files nor form data. *)
Theorem requests_carry_key (env : Env) (api_key base_url : string) (timeout : Q)
    (httpx_client : option nat) (s0 s1 : State) (self : Poof) :
  __init__ api_key base_url timeout httpx_client s0 = (Return self, s1) →
  (∀ image format channels bg_color size crop s o s' req,
     remove_background env self image format channels bg_color size crop s = (o, s') →
     calls_made s s' [req] →
     Httpx.method req = Httpx.POST
     ∧ Httpx.url req = PyStr.rstrip (PyStr.is_char "/") base_url +:+ "/remove"
     ∧ Httpx.req_headers req !! "x-api-key" = Some api_key
     ∧ Httpx.req_headers req !! "User-Agent" = Some "poof-python/0.1.0"
     ∧ (∀ k, k ≠ "x-api-key" → k ≠ "User-Agent" → Httpx.req_headers req !! k = None))
  ∧ (∀ s o s' req,
       me env self s = (o, s') → calls_made s s' [req] →
       Httpx.method req = Httpx.GET
       ∧ Httpx.url req = PyStr.rstrip (PyStr.is_char "/") base_url +:+ "/me"
       ∧ Httpx.files req = None
       ∧ Httpx.data req = None
       ∧ Httpx.req_headers req !! "x-api-key" = Some api_key
       ∧ Httpx.req_headers req !! "User-Agent" = Some "poof-python/0.1.0"
       ∧ (∀ k, k ≠ "x-api-key" → k ≠ "User-Agent" → Httpx.req_headers req !! k = None)).
Proof.
  intros Hinit.
  assert (_api_key self = api_key
          ∧ _base_url self = PyStr.rstrip (PyStr.is_char "/") base_url) as [Hkey Hbase].
  { unfold __init__ in Hinit. destruct (negb (PyStr.truthy api_key)); [done |].
    destruct httpx_client; run_step; by injection Hinit as <- _. }
  assert (Hheaders : ∀ req, Httpx.req_headers req = _get_headers self →
    Httpx.req_headers req !! "x-api-key" = Some api_key
    ∧ Httpx.req_headers req !! "User-Agent" = Some "poof-python/0.1.0"
    ∧ (∀ k, k ≠ "x-api-key" → k ≠ "User-Agent" → Httpx.req_headers req !! k = None)).
  { intros req ->. rewrite !get_headers_lookup, Hkey. simpl.
    split; [done |]. split; [done |]. intros k Hk1 Hk2.
    rewrite get_headers_lookup. by repeat case_decide. }
  split.
  - intros image format channels bg_color size crop s o s' req Hrun Hcalls.
    destruct (remove_background_request _ _ _ _ _ _ _ _ _ _ _ _ Hrun Hcalls)
      as (part & s2 & _ & (Hm & Hu & Hh & _) & _).
    split; [done |]. split; [by rewrite Hu, Hbase |]. by apply Hheaders.
  - intros s o s' req Hrun Hcalls.
    rewrite (me_request_unique _ _ _ _ _ _ Hrun Hcalls).
    split; [done |]. split; [simpl; by rewrite Hbase |].
    split; [done |]. split; [done |]. by apply Hheaders.
Qed.

Lemma requests_carry_key_witness :
  ∃ self s1 req,
    __init__ "secret" "https://api.poof.bg/v1/" DEFAULT_TIMEOUT (Some 0%nat) Demo.state
    = (Return self, s1)
    ∧ calls_made s1 (me (Demo.env (Demo.json_error 401)) self s1).2 [req]
    ∧ Httpx.url req = "https://api.poof.bg/v1/me"
    ∧ Httpx.req_headers req !! "x-api-key" = Some "secret".
Proof.
  destruct (__init__ "secret" "https://api.poof.bg/v1/" DEFAULT_TIMEOUT (Some 0%nat)
              Demo.state) as [[self | e] s1] eqn:Hinit; [| discriminate Hinit].
  destruct (requests_carry_key (Demo.env (Demo.json_error 401)) _ _ _ _ _ _ _ Hinit)
    as [_ Hme].
  exists self, s1, (me_request self). split; [reflexivity |].
  assert (Hcalls : calls_made s1 (me (Demo.env (Demo.json_error 401)) self s1).2
                     [me_request self]).
  { injection Hinit as <- <-. reflexivity. }
  split; [exact Hcalls |].
  destruct (Hme _ _ _ _ (surjective_pairing _) Hcalls) as (_ & Hurl & _ & _ & Hkey & _).
  split; [exact Hurl | exact Hkey].
Defined.

(** ** What comes back on success *)

(** X4. [me] does not validate the account information: on a 200 response
    it returns the parsed body as it is, whatever JSON value it is (an
    object with other keys, a list, [null]); a 200 response whose body
    does not parse raises the error of the parser, not a [PoofError]. *)
Theorem me_returns_body_as_is (env : Env) (self : Poof) (s s' : State)
    (o : outcome json) (req : Httpx.Request) (response : Httpx.Response) :
  answered env (me env self) s o s' req response →
  Httpx.status_code response = 200 →
  (∀ v, Httpx.json_body response = Some v → o = Return v)
  ∧ (Httpx.json_body response = None → o = Raise JSONDecodeError).
Proof.
  intros Hans Hst. apply me_answered in Hans as (_ & _ & Hafter).
  unfold after_me_response, bind, ret, raise in Hafter. rewrite Hst in Hafter.
  simpl in Hafter. split.
  - intros v Hv. rewrite Hv in Hafter. by injection Hafter as <-.
  - intros Hv. rewrite Hv in Hafter. by injection Hafter as <-.
Qed.

Lemma me_returns_body_as_is_witness :
  (me (Demo.env (Demo.of_text 200 [] "[1]" (Some (JArr [JInt 1])))) Demo.client
      Demo.state).1
  = Return (JArr [JInt 1]).
Proof.
  set (r := Demo.of_text 200 [] "[1]" (Some (JArr [JInt 1]))).
  destruct (me_returns_body_as_is (Demo.env r) Demo.client Demo.state
              (me (Demo.env r) Demo.client Demo.state).2
              (me (Demo.env r) Demo.client Demo.state).1
              (me_request Demo.client) r) as [Hbody _].
  - split; [apply surjective_pairing | split; reflexivity].
  - reflexivity.
  - by apply Hbody.
Defined.

Lemma returned_result_fields (env : Env) (self : Poof) (image : ImageInput)
    (format channels bg_color size : option string) (crop : option bool)
    (s s' : State) (o : outcome RemoveBackgroundResult)
    (req : Httpx.Request) (response : Httpx.Response) (res : RemoveBackgroundResult) :
  answered env
    (remove_background env self image format channels bg_color size crop)
    s o s' req response →
  o = Return res →
  Httpx.status_code response = 200
  ∧ res_data res = Httpx.content response
  ∧ res_content_type res = Httpx.get (Httpx.headers response) "Content-Type"
  ∧ res_request_id res = Httpx.get (Httpx.headers response) "X-Request-ID".
Proof.
  intros Hans ->.
  destruct (decide (Httpx.status_code response = 200)) as [Hst | Hst].
  - split; [done |].
    pose proof (ok_response_steps env self image format channels bg_color size crop
                  s s' _ req response Hans Hst) as Hsteps.
    unfold bind, ret in Hsteps.
    destruct (int_or_none_cases env
                (Httpx.get (Httpx.headers response) "X-Processing-Time-Ms") s')
      as [[f1 E1] | [msg E1]]; rewrite E1 in Hsteps; [| done].
    destruct (int_or_none_cases env
                (Httpx.get (Httpx.headers response) "X-Image-Width") s')
      as [[f2 E2] | [msg E2]]; rewrite E2 in Hsteps; [| done].
    destruct (int_or_none_cases env
                (Httpx.get (Httpx.headers response) "X-Image-Height") s')
      as [[f3 E3] | [msg E3]]; rewrite E3 in Hsteps; [| done].
    by injection Hsteps as <-.
  - apply remove_background_answered in Hans as (part & s1 & _ & _ & _ & Hafter).
    destruct (handle_error_total self response) as (cls & e & He & _).
    destruct (after_response_error env self response s' cls e Hst He) as [Hrb _].
    rewrite Hrb in Hafter. discriminate Hafter.
Qed.

(** X5. [remove_background] returns a result for a 200 response only.
    The [content_type] and the [request_id] of the result are the
    [Content-Type] and [X-Request-ID] headers of the response as
    [headers.get] gives them, and [data] is its body: a header that is
    missing gives [None], and, unlike for the numeric fields, an empty one
    is kept as the empty string. *)
Theorem result_headers_verbatim (env : Env) (self : Poof) (image : ImageInput)
    (format channels bg_color size : option string) (crop : option bool)
    (s s' : State) (o : outcome RemoveBackgroundResult)
    (req : Httpx.Request) (response : Httpx.Response) (res : RemoveBackgroundResult) :
  answered env
    (remove_background env self image format channels bg_color size crop)
    s o s' req response →
  o = Return res →
  Httpx.status_code response = 200
  ∧ res_data res = Httpx.content response
  ∧ res_content_type res = Httpx.get (Httpx.headers response) "Content-Type"
  ∧ res_request_id res = Httpx.get (Httpx.headers response) "X-Request-ID".
Proof.
  intros Hans Ho.
  exact (returned_result_fields env self image format channels bg_color size crop
           s s' o req response res Hans Ho).
Qed.

Lemma result_headers_verbatim_witness :
  ∃ res, (Demo.upload Demo.sized Demo.state).1 = Return res
    ∧ res_content_type res = Some "image/png"
    ∧ res_request_id res = None.
Proof.
  destruct (demo_upload_answered Demo.sized) as (req & Hans).
  unfold Demo.upload in Hans at 1.
  destruct (Demo.upload Demo.sized Demo.state).1 as [res | e] eqn:Ho;
    [| discriminate Ho].
  destruct (result_headers_verbatim _ _ _ _ _ _ _ _ _ _ _ _ _ res Hans eq_refl)
    as (_ & _ & Hct & Hrid).
  exists res. split; [reflexivity |]. by rewrite Hct, Hrid.
Defined.

(** ** Streams are read once *)

Lemma prepare_stream_reads (env : Env) (self : Poof) (l : nat) (s s' : State)
    (o : outcome Httpx.FilePart) (st : Stream) :
  streams s !! l = Some st →
  _prepare_image env self (ImgStream l) s = (o, s') →
  (∃ filename content_type,
     o = Return (filename, drop (stream_pos st) (stream_buf st), content_type))
  ∧ streams s' !! l
    = Some (mkStream (stream_buf st)
              (Nat.max (stream_pos st) (length (stream_buf st))) (stream_name st)).
Proof.
  intros Hl. cbn [_prepare_image].
  unfold bind, stream_read, stream_getattr_name, ret. rewrite Hl.
  intros [= <- <-]. split; [by eexists _, _ |]. simpl.
  apply list_lookup_insert_eq. by apply lookup_lt_Some in Hl.
Qed.

(** X6. [remove_background] reads a stream to its end and does not rewind
    it: the first call uploads the bytes from the position of the stream
    on, and a later call on the same stream uploads an empty file, whether
    the first call returned or raised. *)
Theorem stream_is_read_once (env : Env) (self : Poof) (l : nat) (st : Stream)
    (format channels bg_color size : option string) (crop : option bool)
    (s s1 : State) (o1 : outcome RemoveBackgroundResult) :
  streams s !! l = Some st →
  remove_background env self (ImgStream l) format channels bg_color size crop s
  = (o1, s1) →
  (∃ req filename content_type,
     calls_made s s1 [req]
     ∧ Httpx.files req
       = Some {[ "image_file" :=
                   (filename, drop (stream_pos st) (stream_buf st), content_type) ]})
  ∧ ∀ format' channels' bg_color' size' crop' o2 s2,
      remove_background env self (ImgStream l) format' channels' bg_color' size'
        crop' s1 = (o2, s2) →
      ∃ req filename content_type,
        calls_made s1 s2 [req]
        ∧ Httpx.files req = Some {[ "image_file" := (filename, [], content_type) ]}.
Proof.
  intros Hl Hrun.
  assert (Hcall : ∀ f c b z r sa sb oa sta,
    streams sa !! l = Some sta →
    remove_background env self (ImgStream l) f c b z r sa = (oa, sb) →
    (∃ req filename content_type,
       calls_made sa sb [req]
       ∧ Httpx.files req
         = Some {[ "image_file" :=
                     (filename, drop (stream_pos sta) (stream_buf sta), content_type) ]})
    ∧ streams sb !! l
      = Some (mkStream (stream_buf sta)
                (Nat.max (stream_pos sta) (length (stream_buf sta)))
                (stream_name sta))).
  { intros f c b z r sa sb oa sta Hsta Hcallrun.
    apply remove_background_effect in Hcallrun
      as [(e & Hp & _) | (part & sp & req & Hp & Hreq & -> & _)];
      destruct (prepare_stream_reads _ _ _ _ _ _ _ Hsta Hp)
        as [(filename & content_type & Ho) Hafter]; [done |].
    injection Ho as ->.
    destruct (prepare_image_frame _ _ _ _ _ _ Hp) as (_ & Hn & _).
    split; [| done]. exists req, filename, content_type.
    split; [unfold calls_made; simpl; by rewrite Hn |].
    by destruct Hreq as (_ & _ & _ & Hfiles & _). }
  destruct (Hcall _ _ _ _ _ _ _ _ _ Hl Hrun) as [Hfirst Hs1].
  split; [exact Hfirst |].
  intros format' channels' bg_color' size' crop' o2 s2 Hrun2.
  destruct (Hcall _ _ _ _ _ _ _ _ _ Hs1 Hrun2)
    as [(req & filename & content_type & Hcalls & Hfiles) _].
  exists req, filename, content_type. split; [done |].
  rewrite Hfiles. simpl. rewrite drop_ge by lia. done.
Qed.

Lemma stream_is_read_once_witness :
  ∃ req1 req2 s1 s2,
    s1 = (remove_background (Demo.env Demo.sized) Demo.client (ImgStream 0%nat)
            None None None None None Demo.state).2
    ∧ s2 = (remove_background (Demo.env Demo.sized) Demo.client (ImgStream 0%nat)
              None None None None None s1).2
    ∧ net_calls s2 = [req1; req2]
    ∧ Httpx.files req1
      = Some {[ "image_file" := ("photo.jpg", [xff; xe0], "image/jpeg") ]}
    ∧ Httpx.files req2 = Some {[ "image_file" := ("photo.jpg", [], "image/jpeg") ]}.
Proof.
  destruct (stream_is_read_once (Demo.env Demo.sized) Demo.client 0%nat _
              None None None None None Demo.state _ _ eq_refl
              (surjective_pairing _))
    as [(req1 & fn1 & ct1 & Hcalls1 & Hfiles1) Hsecond].
  destruct (Hsecond None None None None None _ _ (surjective_pairing _))
    as (req2 & fn2 & ct2 & Hcalls2 & Hfiles2).
  exists req1, req2. eexists _, _. split; [reflexivity |]. split; [reflexivity |].
  unfold calls_made in Hcalls1, Hcalls2.
  split; [by rewrite Hcalls2, Hcalls1 |].
  vm_compute in Hcalls1. injection Hcalls1 as <-.
  vm_compute in Hcalls2. injection Hcalls2 as <-.
  split; reflexivity.
Defined.

(** ** The file name that is uploaded *)

Lemma split_no_sep (sep : ascii) (s : string) :
  Forall (λ w, PyStr.contains sep w = false) (PyStr.split sep s).
Proof.
  induction s as [| c s IH]; [by repeat constructor |].
  cbn [PyStr.split]. destruct (Ascii.eqb_spec c sep) as [-> | Hne].
  - by constructor.
  - assert (Ascii.eqb c sep = false) as Hc by by destruct (Ascii.eqb_spec c sep).
    destruct (PyStr.split sep s) as [| w ws].
    + constructor; [simpl; by rewrite Hc | constructor].
    + inversion_clear IH as [| ? ? Hw Hws]. constructor; [| done].
      simpl. by rewrite Hw, Hc.
Qed.

Lemma last_Forall {A} (P : A → Prop) (l : list A) (d : A) :
  Forall P l → P d → P (List.last l d).
Proof.
  intros Hl Hd. induction Hl as [| x l Hx Hl IH]; [done |].
  simpl. by destruct l.
Qed.

Lemma built_path_name_no_slash (p : Pathlib.PurePath) :
  built_path p → PyStr.contains "/" (Pathlib.name p) = false.
Proof.
  intros [raw ->]. unfold Pathlib.name, Pathlib.Path.
  destruct (Pathlib.splitroot raw) as [r rel]. cbn [Pathlib.parts].
  apply last_Forall; [| done].
  apply Forall_forall. intros w [_ Hw]%list_elem_of_filter.
  by apply (proj1 (Forall_forall _ _) (split_no_sep "/" rel)).
Qed.

(** X7. The file name that [remove_background] uploads never contains a
    slash, so the directories of the caller's file are not sent: for an
    image given by its path it is the last component of the path; for a
    stream it is the last component of its [name] when that is a [str] or a
    [Path], and ["image"] when the stream has no [name] or one of another
    type; it is ["image"] for a byte buffer. *)
Theorem uploaded_name_has_no_directory (env : Env) (self : Poof)
    (image : ImageInput) (format channels bg_color size : option string)
    (crop : option bool) (s s' : State) (o : outcome RemoveBackgroundResult)
    (req : Httpx.Request) :
  image_paths_built image s →
  remove_background env self image format channels bg_color size crop s = (o, s') →
  calls_made s s' [req] →
  ∃ filename data content_type,
    Httpx.files req = Some {[ "image_file" := (filename, data, content_type) ]}
    ∧ PyStr.contains "/" filename = false
    ∧ (∀ p, image_path image = Some p → filename = Pathlib.name p)
    ∧ (∀ b, image = ImgBytes b → filename = "image")
    ∧ (∀ l st, image = ImgStream l → streams s !! l = Some st →
         (∀ n, stream_name st = Some (NameStr n) →
               filename = Pathlib.name (Pathlib.Path n))
         ∧ (∀ p, stream_name st = Some (NamePath p) → filename = Pathlib.name p)
         ∧ (stream_name st = Some NameOther → filename = "image")
         ∧ (stream_name st = None → filename = "image")).
Proof.
  intros Hbuilt Hrun Hcalls.
  destruct (remove_background_request _ _ _ _ _ _ _ _ _ _ _ _ Hrun Hcalls)
    as ([[filename data] content_type] & s1 & Hp & (_ & _ & _ & Hfiles & _) & _).
  exists filename, data, content_type. split; [done |].
  assert (Hpath : ∀ p,
    (let* found := lift (path_exists env (Pathlib.str p)) in
     if negb found
     then raise (FileNotFoundError ("Image file not found: " +:+ Pathlib.str p))
     else let* data := lift (path_read_bytes env (Pathlib.str p)) in
          ret (Pathlib.name p, data,
               PyStr.or_else (guess_type env (Pathlib.name p)) octet_stream)) s
    = (Return (filename, data, content_type), s1) →
    filename = Pathlib.name p).
  { intros p. run_step. repeat case_match; by intros [= <- _ _ _]. }
  destruct image as [raw | p | b | l | ty0 | ty]; cbn [_prepare_image] in Hp.
  - apply Hpath in Hp as ->.
    split; [apply built_path_name_no_slash; by exists raw |].
    split; [by intros p [= <-] |]. by split.
  - apply Hpath in Hp as ->.
    split; [by apply built_path_name_no_slash |].
    split; [by intros p' [= <-] |]. by split.
  - injection Hp as <- _ _ _. split; [done |]. split; [done |]. by split.
  - clear Hpath. unfold bind, stream_read, stream_getattr_name, ret in Hp.
    destruct (streams s !! l) as [st |] eqn:Hl; [| done].
    injection Hp as <- _ _ _. simpl.
    rewrite list_lookup_insert_eq by by apply lookup_lt_Some in Hl. simpl.
    split; [| split; [done | split; [done |]]].
    + destruct (stream_name st) as [[n | p |] |] eqn:Hname; try done.
      * apply built_path_name_no_slash. by exists n.
      * apply built_path_name_no_slash. by apply (Hbuilt st p).
    + intros l' st' [= <-] Hl'. rewrite Hl in Hl'. injection Hl' as <-.
      repeat split; intros; by simplify_option_eq.
  - done.
  - done.
Qed.

Lemma uploaded_name_has_no_directory_witness :
  ∃ req filename data content_type,
    calls_made Demo.state
      (remove_background (Demo.env Demo.sized) Demo.client (ImgStream 0%nat)
         None None None None None Demo.state).2 [req]
    ∧ Httpx.files req = Some {[ "image_file" := (filename, data, content_type) ]}
    ∧ stream_name <$> streams Demo.state !! 0%nat
      = Some (Some (NameStr "/tmp/upload/photo.jpg"))
    ∧ filename = "photo.jpg".
Proof.
  assert (∃ req, calls_made Demo.state
            (remove_background (Demo.env Demo.sized) Demo.client (ImgStream 0%nat)
               None None None None None Demo.state).2 [req]) as [req Hcalls].
  { eexists. reflexivity. }
  destruct (uploaded_name_has_no_directory (Demo.env Demo.sized) Demo.client
              (ImgStream 0%nat) None None None None None Demo.state _ _ req
              ltac:(by intros st p [= <-]) (surjective_pairing _) Hcalls)
    as (filename & data & content_type & Hfiles & _ & _ & _ & Hstream).
  exists req, filename, data, content_type.
  split; [exact Hcalls |]. split; [exact Hfiles |]. split; [reflexivity |].
  destruct (Hstream 0%nat _ eq_refl eq_refl) as [Hname _].
  exact (Hname _ eq_refl).
Defined.

(** ** The base URL *)

Lemma rstrip_clean (c : ascii) (s : string) :
  PyStr.ends_with c s = false → PyStr.rstrip (PyStr.is_char c) s = s.
Proof.
  induction s as [| a s IH]; [done |].
  cbn [PyStr.ends_with PyStr.rstrip]. destruct s as [| b r].
  - intros Ha. simpl. unfold PyStr.is_char.
    rewrite Ascii.eqb_sym. by rewrite Ha.
  - intros Hend. by rewrite (IH Hend).
Qed.

(** X8. A base URL that does not end with a slash is taken as it is: the
    client stores it unchanged, so the default URL goes through untouched,
    and normalising the stored URL once more changes nothing. *)
Theorem init_keeps_clean_base_url (api_key base_url : string) (timeout : Q)
    (httpx_client : option nat) (s s' : State) (c : Poof) :
  __init__ api_key base_url timeout httpx_client s = (Return c, s') →
  (PyStr.ends_with "/" base_url = false → _base_url c = base_url)
  ∧ PyStr.rstrip (PyStr.is_char "/") (_base_url c) = _base_url c.
Proof.
  intros Hinit.
  assert (_base_url c = PyStr.rstrip (PyStr.is_char "/") base_url) as ->.
  { unfold __init__ in Hinit. destruct (negb (PyStr.truthy api_key)); [done |].
    destruct httpx_client; run_step; by injection Hinit as <- _. }
  split; [apply rstrip_clean |].
  apply rstrip_clean. by destruct (rstrip_spec "/" base_url).
Qed.

Lemma init_keeps_clean_base_url_witness :
  ∃ c s', __init__ "key" DEFAULT_BASE_URL DEFAULT_TIMEOUT None Demo.state = (Return c, s')
    ∧ _base_url c = DEFAULT_BASE_URL.
Proof.
  destruct (__init__ "key" DEFAULT_BASE_URL DEFAULT_TIMEOUT None Demo.state)
    as [[c | e] s'] eqn:Hinit; [| discriminate Hinit].
  exists c, s'. split; [reflexivity |].
  destruct (init_keeps_clean_base_url _ _ _ _ _ _ _ Hinit) as [Hclean _].
  by apply Hclean.
Defined.

(** ** Saving a result *)

(** X9. [save] writes the body of the response, byte for byte: after a
    call that returned a result, [bytes(result)] is the body and
    [len(result)] its length, and saving to a path makes the file that the
    path names hold exactly those bytes, whatever it held; every other
    file is as before.  When the system refuses to open the path, [save]
    raises that error and no file has changed; when the write fails after
    the open, [save] raises that error, the file is left with the bytes
    that got through, a prefix of the body, and every other file is as
    before. *)
Theorem saved_file_is_response_body (env : Env) (self : Poof) (image : ImageInput)
    (format channels bg_color size : option string) (crop : option bool)
    (s s' : State) (o : outcome RemoveBackgroundResult)
    (req : Httpx.Request) (response : Httpx.Response) (res : RemoveBackgroundResult)
    (m : Mount) (path : PathLike) (disk : Disk) :
  answered env
    (remove_background env self image format channels bg_color size crop)
    s o s' req response →
  o = Return res →
  let spelling := Pathlib.str (to_path path) in
  let file := resolve m spelling in
  Result.__bytes__ res = Httpx.content response
  ∧ Result.__len__ res = Z.of_nat (length (Httpx.content response))
  ∧ (open_refused m spelling = None → write_fails m spelling = None →
     ∃ disk', Result.save m res path disk = (Return tt, disk')
       ∧ disk' !! file = Some (Httpx.content response)
       ∧ ∀ other, other ≠ file → disk' !! other = disk !! other)
  ∧ (∀ e, open_refused m spelling = Some e →
     Result.save m res path disk = (Raise e, disk))
  ∧ (∀ e n, open_refused m spelling = None → write_fails m spelling = Some (e, n) →
     ∃ disk', Result.save m res path disk = (Raise e, disk')
       ∧ disk' !! file = Some (take n (Httpx.content response))
       ∧ ∀ other, other ≠ file → disk' !! other = disk !! other).
Proof.
  intros Hans Ho spelling file.
  destruct (returned_result_fields env self image format channels bg_color size
              crop s s' o req response res Hans Ho) as (_ & Hdata & _).
  unfold Result.__bytes__, Result.__len__, Result.save, write_bytes.
  fold spelling. fold file. rewrite Hdata.
  split; [done |]. split; [done |]. split; [| split].
  - intros -> ->. eexists. split; [reflexivity |].
    split; [apply lookup_insert_eq |]. intros other Hother.
    by apply lookup_insert_ne.
  - by intros e ->.
  - intros e n -> ->. eexists. split; [reflexivity |].
    split; [apply lookup_insert_eq |]. intros other Hother.
    by apply lookup_insert_ne.
Qed.

Lemma saved_file_is_response_body_witness :
  let m := mkMount (λ p, if bool_decide (p = "out/cutout.png") then 7%nat else 0%nat)
                   (λ _, None) (λ _, None) in
  ∃ res disk',
    (Demo.upload Demo.sized Demo.state).1 = Return res
    ∧ Result.save m res (PathStr "./out/cutout.png") {[ 7%nat := Demo.photo ]}
      = (Return tt, disk')
    ∧ disk' !! 7%nat = Some Demo.cutout
    ∧ Result.__len__ res = 4.
Proof.
  intros m.
  destruct (demo_upload_answered Demo.sized) as (req & Hans).
  unfold Demo.upload in Hans at 1.
  destruct (Demo.upload Demo.sized Demo.state).1 as [res | e] eqn:Ho;
    [| discriminate Ho].
  destruct (saved_file_is_response_body _ _ _ _ _ _ _ _ _ _ _ _ _ res m
              (PathStr "./out/cutout.png") {[ 7%nat := Demo.photo ]}
              Hans eq_refl)
    as (_ & Hlen & Hsave & _).
  destruct (Hsave eq_refl eq_refl) as (disk' & Hrun & Hfile & _).
  exists res, disk'. split; [reflexivity |]. split; [exact Hrun |].
  split; [exact Hfile | exact Hlen].
Defined.

(** ** Files that cannot be read *)

(** X10. A path that exists but cannot be read (a directory, a file
    without permission) makes [remove_background] raise the error of
    [read_bytes] as it is, neither [FileNotFoundError] nor a [PoofError],
    and nothing has changed when it raises: no network call was made. *)
Theorem unreadable_path_raises_before_network (env : Env) (self : Poof)
    (image : ImageInput) (format channels bg_color size : option string)
    (crop : option bool) (s : State) (p : Pathlib.PurePath) (e : exn) :
  image_path image = Some p →
  path_exists env (Pathlib.str p) = Return true →
  path_read_bytes env (Pathlib.str p) = Raise e →
  remove_background env self image format channels bg_color size crop s
  = (Raise e, s).
Proof.
  intros Hpath Hexists Hread. apply remove_background_prepare_fails.
  destruct image; simplify_eq/=; run_step; by rewrite Hexists, Hread.
Qed.

Lemma unreadable_path_raises_before_network_witness :
  remove_background
    (Demo.env_on (λ p, Raise (OSError ("Is a directory: " +:+ p)))
       (Return Demo.sized))
    Demo.client (ImgStr "/tmp/") None None None None None Demo.state
  = (Raise (OSError "Is a directory: /tmp"), Demo.state).
Proof.
  apply (unreadable_path_raises_before_network _ _ _ _ _ _ _ _ _
           (Pathlib.Path "/tmp/")); reflexivity.
Defined.

(** ** The form of a request *)

(** X11. The form data of a request is left out exactly when no option is
    set.  An option is sent as soon as it is not [None]: one set to the
    empty string gives a field with an empty value, and [crop=False] gives
    the field ["false"]. *)
Theorem form_omitted_iff_no_option (env : Env) (self : Poof) (image : ImageInput)
    (format channels bg_color size : option string) (crop : option bool)
    (s s' : State) (o : outcome RemoveBackgroundResult) (req : Httpx.Request) :
  remove_background env self image format channels bg_color size crop s = (o, s') →
  calls_made s s' [req] →
  (Httpx.data req = None ↔
   format = None ∧ channels = None ∧ bg_color = None ∧ size = None ∧ crop = None)
  ∧ (bg_color = Some "" → Httpx.form_fields req !! "bg_color" = Some "")
  ∧ (crop = Some false → Httpx.form_fields req !! "crop" = Some "false").
Proof.
  intros Hrun Hcalls.
  destruct (remove_background_request _ _ _ _ _ _ _ _ _ _ _ _ Hrun Hcalls)
    as (part & s1 & _ & (_ & _ & _ & _ & Hf & Hc & Hb & Hz & Hcr & Hother & Hne) & _).
  split; [| split].
  - split.
    + intros Hnone. unfold Httpx.form_fields in *. rewrite Hnone in *.
      simpl in *. rewrite lookup_empty in Hf, Hc, Hb, Hz, Hcr.
      by destruct format, channels, bg_color, size, crop.
    + intros (-> & -> & -> & -> & ->).
      destruct (Httpx.data req) as [d |] eqn:Hd; [| done].
      destruct Hne. f_equal. apply map_eq. intros k. rewrite lookup_empty.
      unfold Httpx.form_fields in *. rewrite Hd in *. simpl in *.
      destruct (decide (k ∈ option_fields)) as [Hin | Hout]; [| by apply Hother].
      unfold option_fields in Hin.
      repeat (apply elem_of_cons in Hin as [-> | Hin]; [done |]).
      by apply elem_of_nil in Hin.
  - intros ->. exact Hb.
  - intros ->. exact Hcr.
Qed.

Lemma form_omitted_iff_no_option_witness :
  ∃ req, calls_made Demo.state (Demo.upload Demo.sized Demo.state).2 [req]
    ∧ Httpx.data req = None.
Proof.
  assert (∃ req, calls_made Demo.state (Demo.upload Demo.sized Demo.state).2 [req])
    as [req Hcalls].
  { eexists. reflexivity. }
  exists req. split; [exact Hcalls |].
  destruct (form_omitted_iff_no_option (Demo.env Demo.sized) Demo.client
              (ImgBytes Demo.photo) None None None None None Demo.state _ _ req
              (surjective_pairing _) Hcalls) as [[_ Hnone] _].
  by apply Hnone.
Defined.

(** ** A client in a [with] block *)

Lemma remove_background_handles (env : Env) (self : Poof) (image : ImageInput)
    (format channels bg_color size : option string) (crop : option bool)
    (s s' : State) (o : outcome RemoveBackgroundResult) :
  remove_background env self image format channels bg_color size crop s = (o, s') →
  handles s' = handles s.
Proof.
  intros Hrun.
  apply remove_background_effect in Hrun
    as [(e & Hp & _) | (part & s1 & req & Hp & _ & -> & _)];
    by destruct (prepare_image_frame _ _ _ _ _ _ Hp) as (Hh & _).
Qed.

Lemma me_handles (env : Env) (self : Poof) (s s' : State) (o : outcome json) :
  me env self s = (o, s') → handles s' = handles s.
Proof.
  intros Hrun. rewrite me_sends in Hrun.
  destruct (http_send env (me_request self)).
  - rewrite after_me_response_state in Hrun. by injection Hrun as _ <-.
  - by injection Hrun as _ <-.
Qed.

(** What leaving the block does to the handles, for a body that leaves
    them alone. *)
Lemma with_closes_own_handle {A} (api_key base_url : string) (timeout : Q)
    (s s1 : State) (c : Poof) (body : Poof → M A) :
  __init__ api_key base_url timeout None s = (Return c, s1) →
  (∀ o s', body c s1 = (o, s') → handles s' = handles s1) →
  ∀ o s2, with_ c body s1 = (o, s2) →
    o = (body c s1).1
    ∧ handles s2 !! _client c = Some (Httpx.mkClient timeout true)
    ∧ (∀ j, j ≠ _client c → handles s2 !! j = handles s !! j).
Proof.
  intros Hinit Hbody o s2 Hwith.
  unfold __init__ in Hinit. destruct (negb (PyStr.truthy api_key)); [done |].
  run_step. injection Hinit as <- <-.
  unfold with_, __enter__, __exit__, close, ret in Hwith. cbn [_owns_client] in Hwith.
  destruct (body _ _) as [r s3] eqn:Hrun.
  specialize (Hbody _ _ eq_refl). simpl in Hbody.
  unfold httpx_close in Hwith. injection Hwith as <- <-. simpl.
  split; [done |]. rewrite Hbody. split.
  - rewrite list_lookup_alter_eq, lookup_app_r, Nat.sub_diag by done. done.
  - intros j Hj. rewrite list_lookup_alter_ne by done.
    destruct (decide (j < length (handles s))%nat) as [Hlt | Hge].
    + by apply lookup_app_l.
    + rewrite lookup_app_r by lia. rewrite (lookup_ge_None_2 (handles s)) by lia.
      destruct (j - length (handles s))%nat eqn:Hd; [lia | done].
Qed.

(** X12. A client that is made without a handle and used in a [with] block
    leaves its handle closed when the block ends, whether the operation in
    the block returned or raised; the block gives what the operation gave,
    and the handles that the caller had before are as they were. *)
Theorem with_block_closes_after_operation (env : Env) (api_key base_url : string)
    (timeout : Q) (s s1 : State) (c : Poof) :
  __init__ api_key base_url timeout None s = (Return c, s1) →
  (∀ image format channels bg_color size crop o s2,
     with_ c (λ c', remove_background env c' image format channels bg_color size crop)
       s1 = (o, s2) →
     o = (remove_background env c image format channels bg_color size crop s1).1
     ∧ handles s2 !! _client c = Some (Httpx.mkClient timeout true)
     ∧ (∀ j, j ≠ _client c → handles s2 !! j = handles s !! j))
  ∧ (∀ o s2, with_ c (me env) s1 = (o, s2) →
       o = (me env c s1).1
       ∧ handles s2 !! _client c = Some (Httpx.mkClient timeout true)
       ∧ (∀ j, j ≠ _client c → handles s2 !! j = handles s !! j)).
Proof.
  intros Hinit. split.
  - intros image format channels bg_color size crop o s2 Hwith.
    apply (with_closes_own_handle api_key base_url timeout s s1 c
             (λ c', remove_background env c' image format channels bg_color size crop)
             Hinit); [| exact Hwith].
    intros o' s'. apply remove_background_handles.
  - intros o s2 Hwith.
    apply (with_closes_own_handle api_key base_url timeout s s1 c (me env) Hinit);
      [| exact Hwith].
    intros o' s'. apply me_handles.
Qed.

Lemma with_block_closes_after_operation_witness :
  ∃ c s1,
    __init__ "key" DEFAULT_BASE_URL DEFAULT_TIMEOUT None Demo.state = (Return c, s1)
    ∧ let out := with_ c (me (Demo.env (Demo.json_error 401))) s1 in
      (∃ e, out.1 = Raise (ApiError AuthError e))
      ∧ Httpx.is_closed <$> handles out.2 !! _client c = Some true
      ∧ Httpx.is_closed <$> handles out.2 !! 0%nat = Some false.
Proof.
  destruct (__init__ "key" DEFAULT_BASE_URL DEFAULT_TIMEOUT None Demo.state)
    as [[c | e] s1] eqn:Hinit; [| discriminate Hinit].
  destruct (with_block_closes_after_operation (Demo.env (Demo.json_error 401))
              _ _ _ _ _ _ Hinit) as [_ Hme].
  destruct (Hme _ _ (surjective_pairing _)) as (Ho & Hown & Hother).
  exists c, s1. split; [reflexivity |]. intros out. subst out.
  split; [| split].
  - rewrite Ho. injection Hinit as <- <-. eexists. reflexivity.
  - rewrite Hown. reflexivity.
  - rewrite Hother; [| injection Hinit as <- <-; simpl; lia]. reflexivity.
Defined.
